(** * geotranote: report submission, dashboard reads and route guards

    A shallow embedding of the TypeScript sources:
    - [Routes]    : the route table of the top-level [App] component;
    - [Charts]    : the chart series of the overview dashboard
                    ([serviceTypeData], [removalsBySector]);
    - [Dashboard] : the filtered dashboard ([fetchData] and the summary tiles);
    - [Form]      : the report form ([handleSubmit], [handleAddInfraction]).

    The hosted store and the token generator are external services.  They are
    modelled as a world that is threaded through every call: tables with
    store-generated identifiers, an oracle that decides which remote call
    returns an error, a token source, and a trace of the calls that were made.
    The numbers the dashboards add up are JavaScript numbers, that is IEEE 754
    binary64 values: they are the primitive [float], and [+] on them is the
    primitive addition.  The counts of the form are never added and are kept
    as [Z]. *)

From Stdlib Require Import List String ZArith Lia Bool Arith PeanoNat.
From Stdlib Require Import Permutation Sorted.
From Stdlib Require Import Floats.
From Stdlib Require Uint63.
Import ListNotations.
Local Open Scope string_scope.
Local Open Scope list_scope.

(** ** State passing over a world *)

Definition M (W A : Type) : Type := W -> A * W.

Definition ret {W A : Type} (a : A) : M W A := fun w => (a, w).

Definition bind {W A B : Type} (m : M W A) (k : A -> M W B) : M W B :=
  fun w => let (a, w') := m w in k a w'.

Notation "x <- m ;; k" := (bind m (fun x => k))
  (at level 61, m at next level, right associativity).

(** The error object of a failed store call: whether it is an instance of
    [Error], and its message. *)
Record RemoteError : Type := mkRemoteError
  { instanceof_Error : bool; message : string }.

(** The [{ data, error }] object every store call resolves to. *)
Record Response (A : Type) : Type := mkResponse
  { data : option A; error : option RemoteError }.
Arguments mkResponse {A} _ _.
Arguments data {A} _.
Arguments error {A} _.

Definition succeeded {A : Type} (a : A) : Response A := mkResponse (Some a) None.
Definition errored {A : Type} (e : RemoteError) : Response A := mkResponse None (Some e).

(** JavaScript truthiness of a string: the empty string is falsy. *)
Definition truthy (s : string) : bool := negb (s =? "").

(** [Array.prototype.find] followed by an in-place change of the found
    object: the first element satisfying [p] is replaced by its image. *)
Fixpoint update_first {B : Type} (p : B -> bool) (f : B -> B) (l : list B) : list B :=
  match l with
  | [] => []
  | b :: tl => if p b then f b :: tl else b :: update_first p f tl
  end.

(** Sum of a list of integers. *)
Definition Zsum (l : list Z) : Z := fold_right Z.add 0%Z l.

(** ** JavaScript numbers *)

(** [Number.MAX_SAFE_INTEGER] *)
Definition MAX_SAFE_INTEGER : Z := 9007199254740991.

(** The number that holds the integer [n] (for [0 <= n < 2^63]; beyond
    [2^53] it is the nearest number). *)
Definition of_int (n : Z) : float := PrimFloat.of_uint63 (Uint63.of_Z n).

(** The integer part of a positive finite number, 0 for any other number. *)
Definition to_int (x : float) : Z :=
  match Prim2SF x with
  | S754_finite false m e => Z.shiftl (Zpos m) e
  | _ => 0%Z
  end.

(** A count: a number that holds a non-negative safe integer. *)
Definition is_count (x : float) : Prop :=
  (0 <= to_int x <= MAX_SAFE_INTEGER)%Z /\ of_int (to_int x) = x.

(** The exact sum of the integers a list of counts holds. *)
Definition count_sum (l : list float) : Z := Zsum (map to_int l).

(** A mantissa shifted left by [k] bits. *)
Definition shl (m : positive) (k : nat) : positive := Nat.iter k xO m.

(** The binary64 representation of a positive integer below [2^53]. *)
Definition canon (p : positive) : spec_float :=
  S754_finite false (shl p (Z.to_nat (53 - Zpos (digits2_pos p))))
              (Zpos (digits2_pos p) - 53).

(** The distinct keys of a list, in the order of their first occurrence. *)
Fixpoint first_seen (keys : list string) : list string :=
  match keys with
  | [] => []
  | k :: tl => k :: filter (fun x => negb (x =? k)) (first_seen tl)
  end.

(** One step of a grouping [reduce]: the accumulator entry with the key of
    the record is merged with it, or a new entry is pushed at the end. *)
Section GroupStep.

Context {R B : Type}.
Variables (rkey : R -> string) (bkey : B -> string).
Variables (init : R -> B) (merge : R -> B -> B).

Definition group_step (acc : list B) (r : R) : list B :=
  match find (fun item => bkey item =? rkey r) acc with
  | Some _ => update_first (fun item => bkey item =? rkey r) (merge r) acc
  | None => acc ++ [init r]
  end.

End GroupStep.

(** ** The route table of [App] *)

Module Routes.

Inductive Element : Type :=
| Home
| Login
| DashboardPage
| FormPage
| Navigate (to : string).

Section WithSession.

Variable Session : Type.

(** [session] is a [Session] object or [null]; an object is truthy. *)
Definition present (session : option Session) : bool :=
  match session with Some _ => true | None => false end.

Definition routes (session : option Session) : list (string * Element) :=
  [ ("/", Home);
    ("/login", if negb (present session) then Login else Navigate "/");
    ("/dashboard", if present session then DashboardPage else Navigate "/login");
    ("/form", if present session then FormPage else Navigate "/login") ].

(** What [<Routes>] renders at a location that is written as one of the
    four route paths: the element of that route.  The router also matches a
    location that differs from a route path in letter case or by a trailing
    slash; such locations are outside this definition, and nothing is stated
    about its result on them. *)
Definition render (session : option Session) (path : string) : option Element :=
  option_map snd (find (fun r => fst r =? path) (routes session)).

End WithSession.

Arguments present {Session} _.
Arguments routes {Session} _.
Arguments render {Session} _ _.

End Routes.

(** ** Chart series of the overview dashboard *)

Module Charts.

Record Report : Type := mkReport
  { id : string;
    responsible_name : string;
    service_name : string;
    sector : string;
    car_removals : float;
    motorcycle_removals : float;
    created_at : string }.

Record ServiceSlice : Type := mkSlice { name : string; value : Z }.

(** An entry of the sector series; [bar_sector] is its [sector] property. *)
Record SectorBar : Type := mkBar
  { bar_sector : string; cars : float; motorcycles : float }.

Definition serviceTypeStep (acc : list ServiceSlice) (report : Report) : list ServiceSlice :=
  match find (fun item => name item =? service_name report) acc with
  | Some _ =>
      update_first (fun item => name item =? service_name report)
        (fun existingService => mkSlice (name existingService) (value existingService + 1))
        acc
  | None => acc ++ [mkSlice (service_name report) 1]
  end.

Definition serviceTypeData (reports : list Report) : list ServiceSlice :=
  fold_left serviceTypeStep reports [].

Definition removalsStep (acc : list SectorBar) (report : Report) : list SectorBar :=
  match find (fun item => bar_sector item =? sector report) acc with
  | Some _ =>
      update_first (fun item => bar_sector item =? sector report)
        (fun existingEntry =>
           mkBar (bar_sector existingEntry)
                 (cars existingEntry + car_removals report)
                 (motorcycles existingEntry + motorcycle_removals report))
        acc
  | None =>
      acc ++ [mkBar (sector report) (car_removals report) (motorcycle_removals report)]
  end.

Definition removalsBySector (reports : list Report) : list SectorBar :=
  fold_left removalsStep reports [].

(** Reference definitions, following the words of the specification: one
    group per key in first-seen order, with the count of its reports, or
    with the sums of its car and motorcycle removals. *)
Definition reports_of_service (k : string) (reports : list Report) : list Report :=
  filter (fun r => service_name r =? k) reports.

Definition reports_of_sector (k : string) (reports : list Report) : list Report :=
  filter (fun r => sector r =? k) reports.

Definition service_distribution (reports : list Report) : list ServiceSlice :=
  map (fun k => mkSlice k (Z.of_nat (List.length (reports_of_service k reports))))
      (first_seen (map service_name reports)).

Definition sector_breakdown (reports : list Report) : list SectorBar :=
  map (fun k => mkBar k
                  (of_int (count_sum (map car_removals (reports_of_sector k reports))))
                  (of_int (count_sum (map motorcycle_removals
                                          (reports_of_sector k reports)))))
      (first_seen (map sector reports)).

(** The removal counts of a report are counts. *)
Definition counts_ok (r : Report) : Prop :=
  is_count (car_removals r) /\ is_count (motorcycle_removals r).

(** The report lists on which the sector series adds exactly: counts whose
    totals are safe. *)
Definition safe_listing (rs : list Report) : Prop :=
  Forall counts_ok rs /\
  (count_sum (map car_removals rs) <= MAX_SAFE_INTEGER)%Z /\
  (count_sum (map motorcycle_removals rs) <= MAX_SAFE_INTEGER)%Z.

End Charts.

(** ** The filtered dashboard *)

Module Dashboard.

(** Creation instants as the store holds and compares them. *)
Definition Timestamp : Type := Z.

Record Report : Type := mkReport
  { id : option string;   (* [undefined] when the row carries no such property *)
    service_name : string;
    car_removals : float;
    motorcycle_removals : float;
    total_approaches : float;
    created_at : Timestamp }.

Record Infraction : Type := mkInfraction
  { quantity : float; report_uid : string }.

(** A row of the store's infraction table; the report reference is nullable. *)
Record InfractionRow : Type := mkInfractionRow
  { row_quantity : float; row_report_uid : option string }.

Inductive ServiceType : Type := ordinario | operacao | ras | all.

Definition label (s : ServiceType) : string :=
  match s with
  | ordinario => "ordinario"
  | operacao => "operacao"
  | ras => "ras"
  | all => "all"
  end.

Definition is_all (s : ServiceType) : bool :=
  match s with all => true | _ => false end.

(** *** Queries on the report collection *)

Inductive Filter : Type :=
| EqServiceName (v : string)     (* [.eq('service_name', v)] *)
| GteCreatedAt (v : string)      (* [.gte('created_at', v)] *)
| LteCreatedAt (v : string).     (* [.lte('created_at', v)] *)

Record Query : Type := mkQuery
  { ordering : option bool;      (* [.order('created_at', { ascending })] *)
    filters : list Filter }.

Definition select_all : Query := mkQuery None [].
Definition order_created_at (ascending : bool) (q : Query) : Query :=
  mkQuery (Some ascending) (filters q).
Definition eq_service_name (v : string) (q : Query) : Query :=
  mkQuery (ordering q) (filters q ++ [EqServiceName v]).
Definition gte_created_at (v : string) (q : Query) : Query :=
  mkQuery (ordering q) (filters q ++ [GteCreatedAt v]).
Definition lte_created_at (v : string) (q : Query) : Query :=
  mkQuery (ordering q) (filters q ++ [LteCreatedAt v]).

Inductive Event : Type :=
| EvSelectReports (q : Query)
| EvSelectInfractionsIn (uids : list (option string)).

Record World : Type := mkWorld
  { reportsTable : list Report;
    infractionsTable : list InfractionRow;
    parse_ts : string -> Timestamp;       (* how the store reads a timestamp literal *)
    fails : nat -> option RemoteError;    (* the error of the n-th remote call, if any *)
    calls : nat;
    trace : list Event }.

Definition called (e : Event) (w : World) : World :=
  mkWorld (reportsTable w) (infractionsTable w) (parse_ts w) (fails w)
          (S (calls w)) (trace w ++ [e]).

(** *** What the store answers *)

Definition holds (parse : string -> Timestamp) (r : Report) (f : Filter) : bool :=
  match f with
  | EqServiceName v => service_name r =? v
  | GteCreatedAt v => (parse v <=? created_at r)%Z
  | LteCreatedAt v => (created_at r <=? parse v)%Z
  end.

Definition before (ascending : bool) (a b : Report) : bool :=
  if ascending then (created_at a <=? created_at b)%Z
  else (created_at b <=? created_at a)%Z.

Fixpoint insert_sorted (ascending : bool) (r : Report) (l : list Report) : list Report :=
  match l with
  | [] => [r]
  | x :: tl =>
      if before ascending r x then r :: l else x :: insert_sorted ascending r tl
  end.

Definition sort_rows (ascending : bool) (l : list Report) : list Report :=
  fold_right (insert_sorted ascending) [] l.

Definition run_query (parse : string -> Timestamp) (q : Query) (table : list Report)
  : list Report :=
  let rows := filter (fun r => forallb (holds parse r) (filters q)) table in
  match ordering q with
  | Some ascending => sort_rows ascending rows
  | None => rows
  end.

Definition same_uid (u : string) (v : option string) : bool :=
  match v with Some x => x =? u | None => false end.

Definition run_in (uids : list (option string)) (table : list InfractionRow)
  : list Infraction :=
  flat_map (fun row =>
              match row_report_uid row with
              | Some u =>
                  if existsb (same_uid u) uids
                  then [mkInfraction (row_quantity row) u] else []
              | None => []
              end) table.

Definition selectReports (q : Query) : M World (Response (list Report)) :=
  fun w =>
    let w' := called (EvSelectReports q) w in
    match fails w (calls w) with
    | Some e => (errored e, w')
    | None => (succeeded (run_query (parse_ts w) q (reportsTable w)), w')
    end.

Definition selectInfractionsIn (uids : list (option string))
  : M World (Response (list Infraction)) :=
  fun w =>
    let w' := called (EvSelectInfractionsIn uids) w in
    match fails w (calls w) with
    | Some e => (errored e, w')
    | None => (succeeded (run_in uids (infractionsTable w)), w')
    end.

(** *** Component state and [fetchData] *)

(** [end_] is the [end] property of the date range. *)
Record DateRange : Type := mkDateRange { start : string; end_ : string }.

Record State : Type := mkState
  { reports : list Report;
    infractions : list Infraction;
    loading : bool;
    error_message : option string;   (* the [error] state variable *)
    selectedService : ServiceType;
    dateRange : DateRange }.

Definition setReports (v : list Report) (st : State) : State :=
  mkState v (infractions st) (loading st) (error_message st) (selectedService st) (dateRange st).
Definition setInfractions (v : list Infraction) (st : State) : State :=
  mkState (reports st) v (loading st) (error_message st) (selectedService st) (dateRange st).
Definition setLoading (v : bool) (st : State) : State :=
  mkState (reports st) (infractions st) v (error_message st) (selectedService st) (dateRange st).
Definition setError (v : option string) (st : State) : State :=
  mkState (reports st) (infractions st) (loading st) v (selectedService st) (dateRange st).

Definition reportsQuery (st : State) : Query :=
  let q := order_created_at false select_all in
  let q := if negb (is_all (selectedService st))
           then eq_service_name (label (selectedService st)) q else q in
  let q := if truthy (start (dateRange st))
           then gte_created_at (start (dateRange st)) q else q in
  let q := if truthy (end_ (dateRange st))
           then lte_created_at (end_ (dateRange st) ++ "T23:59:59") q else q in
  q.

(** [id !== undefined] *)
Definition defined (i : option string) : bool :=
  match i with Some _ => true | None => false end.

(** The [catch] and [finally] blocks. *)
Definition caught (err : RemoteError) (st : State) : State :=
  setLoading false
    (setError (Some (if instanceof_Error err then message err
                     else "Erro ao carregar dados")) st).

Definition fetchData (st0 : State) : M World State :=
  let st := setLoading true st0 in
  r <- selectReports (reportsQuery st) ;;
  match error r with
  | Some reportsError => ret (caught reportsError st)
  | None =>
      match data r with
      | Some reportsData =>
          let st := setReports reportsData st in
          let reportUids := filter defined (map id reportsData) in
          if (0 <? List.length reportUids)%nat then
            r2 <- selectInfractionsIn reportUids ;;
            match error r2 with
            | Some infractionsError => ret (caught infractionsError st)
            | None =>
                match data r2 with
                | Some infractionsData =>
                    ret (setLoading false (setInfractions infractionsData st))
                | None => ret (setLoading false st)
                end
            end
          else ret (setLoading false (setInfractions [] st))
      | None => ret (setLoading false st)
      end
  end.

(** *** Summary tiles *)

Definition totalInfractions (infractions : list Infraction) : float :=
  fold_left (fun sum inf => sum + quantity inf)%float infractions 0%float.
Definition totalRemovals (reports : list Report) : float :=
  fold_left (fun sum report => sum + car_removals report + motorcycle_removals report)%float
            reports 0%float.
Definition totalCarRemovals (reports : list Report) : float :=
  fold_left (fun sum report => sum + car_removals report)%float reports 0%float.
Definition totalMotorcycleRemovals (reports : list Report) : float :=
  fold_left (fun sum report => sum + motorcycle_removals report)%float reports 0%float.
Definition totalApproaches (reports : list Report) : float :=
  fold_left (fun sum report => sum + total_approaches report)%float reports 0%float.

(** The three counts of a report are counts. *)
Definition counts_ok (r : Report) : Prop :=
  is_count (car_removals r) /\ is_count (motorcycle_removals r) /\
  is_count (total_approaches r).

(** The filter predicate in the words of the specification. *)
Definition matches (parse : string -> Timestamp) (st : State) (r : Report) : bool :=
  (if is_all (selectedService st) then true
   else service_name r =? label (selectedService st))
  && (if start (dateRange st) =? "" then true
      else (parse (start (dateRange st)) <=? created_at r)%Z)
  && (if end_ (dateRange st) =? "" then true
      else (created_at r <=? parse (end_ (dateRange st) ++ "T23:59:59")%string)%Z).

Definition newest_first (a b : Report) : Prop := (created_at b <= created_at a)%Z.

(** The order relation of a sort direction. *)
Definition in_order (ascending : bool) (a b : Report) : Prop :=
  before ascending a b = true.

End Dashboard.

(** ** The report form *)

Module Form.

Inductive ServiceType : Type := ordinario | operacao | ras.

Inductive SectorType : Type :=
| GEOTRAN_1_Distrito      (* 'GEOTRAN - 1º Distrito' *)
| GEOTRAN_2_Distrito      (* 'GEOTRAN - 2º Distrito' *)
| GEOTRAN_3_4_Distrito    (* 'GEOTRAN - 3º/4º Distrito' *)
| Distrito_1              (* '1º Distrito' *)
| Distrito_2              (* '2º Distrito' *)
| Distrito_3              (* '3º Distrito' *)
| Distrito_4              (* '4º Distrito' *)
| GEDAM
| GRE
| GMAP
| ROMU
| RAS
| Operacao.               (* 'Operação' *)

(** Identifiers generated by the store. *)
Definition Uid : Type := nat.

Record Infraction : Type := mkInfraction
  { infraction_type : string;
    quantity : Z;
    report_uid : option Uid }.

Record FormData : Type := mkFormData
  { service_name : ServiceType;
    sector : SectorType;
    car_removals : Z;
    motorcycle_removals : Z;
    total_approaches : Z }.

Record State : Type := mkState
  { formData : FormData;
    infractions : list Infraction;
    isSidebarOpen : bool;
    selectedInfraction : string;
    quantity_input : Z;            (* the [quantity] state variable *)
    searchTerm : string;
    isDropdownOpen : bool;
    formError : option string;
    protocolNumber : option string;
    supabaseError : option string }.

Definition setFormData (v : FormData) (st : State) : State :=
  mkState v (infractions st) (isSidebarOpen st) (selectedInfraction st) (quantity_input st)
          (searchTerm st) (isDropdownOpen st) (formError st) (protocolNumber st)
          (supabaseError st).
Definition setInfractions (v : list Infraction) (st : State) : State :=
  mkState (formData st) v (isSidebarOpen st) (selectedInfraction st) (quantity_input st)
          (searchTerm st) (isDropdownOpen st) (formError st) (protocolNumber st)
          (supabaseError st).
Definition setIsSidebarOpen (v : bool) (st : State) : State :=
  mkState (formData st) (infractions st) v (selectedInfraction st) (quantity_input st)
          (searchTerm st) (isDropdownOpen st) (formError st) (protocolNumber st)
          (supabaseError st).
Definition setSelectedInfraction (v : string) (st : State) : State :=
  mkState (formData st) (infractions st) (isSidebarOpen st) v (quantity_input st)
          (searchTerm st) (isDropdownOpen st) (formError st) (protocolNumber st)
          (supabaseError st).
Definition setQuantity (v : Z) (st : State) : State :=
  mkState (formData st) (infractions st) (isSidebarOpen st) (selectedInfraction st) v
          (searchTerm st) (isDropdownOpen st) (formError st) (protocolNumber st)
          (supabaseError st).
Definition setSearchTerm (v : string) (st : State) : State :=
  mkState (formData st) (infractions st) (isSidebarOpen st) (selectedInfraction st)
          (quantity_input st) v (isDropdownOpen st) (formError st) (protocolNumber st)
          (supabaseError st).
Definition setFormError (v : option string) (st : State) : State :=
  mkState (formData st) (infractions st) (isSidebarOpen st) (selectedInfraction st)
          (quantity_input st) (searchTerm st) (isDropdownOpen st) v (protocolNumber st)
          (supabaseError st).
Definition setProtocolNumber (v : option string) (st : State) : State :=
  mkState (formData st) (infractions st) (isSidebarOpen st) (selectedInfraction st)
          (quantity_input st) (searchTerm st) (isDropdownOpen st) (formError st) v
          (supabaseError st).

Definition defaultFormData : FormData :=
  mkFormData ordinario GEOTRAN_1_Distrito 0 0 0.

(** *** The store *)

(** A row of the [infractions] table. *)
Record InfractionRow : Type := mkInfractionRow
  { uid : Uid;
    row_report_uid : option Uid;
    row_infraction_type : string;
    row_quantity : Z }.

(** The columns the form writes into [geotranote_reports]. *)
Record ReportData : Type := mkReportData
  { rd_service_name : ServiceType;
    rd_sector : SectorType;
    rd_car_removals : Z;
    rd_motorcycle_removals : Z;
    rd_total_approaches : Z;
    rd_protocol_number : string }.

(** A row of [geotranote_reports]: the store-generated identifier and the
    written columns. *)
Record ReportRow : Type := mkReportRow
  { report_row_uid : Uid; report_columns : ReportData }.

(** A new infraction row as the form sends it: type and quantity only. *)
Record InfractionData : Type := mkInfractionData
  { id_infraction_type : string; id_quantity : Z }.

Record Store : Type := mkStore
  { tbl_reports : list ReportRow;
    tbl_infractions : list InfractionRow;
    next_report_uid : Uid;
    next_infraction_uid : Uid }.

(** A batch insert appends one row per entry, in order, with consecutive
    fresh identifiers and no report reference. *)
Fixpoint fresh_rows (from : Uid) (payload : list InfractionData) : list InfractionRow :=
  match payload with
  | [] => []
  | d :: tl =>
      mkInfractionRow from None (id_infraction_type d) (id_quantity d)
        :: fresh_rows (S from) tl
  end.

Definition store_insert_infractions (payload : list InfractionData) (s : Store) : Store :=
  mkStore (tbl_reports s)
          (tbl_infractions s ++ fresh_rows (next_infraction_uid s) payload)
          (next_report_uid s)
          (next_infraction_uid s + List.length payload).

Definition store_insert_report (payload : ReportData) (s : Store) : Store :=
  mkStore (tbl_reports s ++ [mkReportRow (next_report_uid s) payload])
          (tbl_infractions s)
          (S (next_report_uid s))
          (next_infraction_uid s).

(** An upsert replaces the row that has the primary key of the given row,
    and appends the given row when there is none. *)
Fixpoint upsert_row (r : InfractionRow) (tbl : list InfractionRow) : list InfractionRow :=
  match tbl with
  | [] => [r]
  | x :: tl => if (uid x =? uid r)%nat then r :: tl else x :: upsert_row r tl
  end.

Definition store_upsert_infractions (rows : list InfractionRow) (s : Store) : Store :=
  mkStore (tbl_reports s)
          (fold_left (fun tbl r => upsert_row r tbl) rows (tbl_infractions s))
          (next_report_uid s)
          (Nat.max (next_infraction_uid s)
                   (fold_right (fun r m => Nat.max (S (uid r)) m) 0%nat rows)).

(** *** The world of a submission *)

Inductive Event : Type :=
| EvNanoid (token : string)
| EvInsertInfractions (payload : list InfractionData) (failed : bool)
| EvInsertReport (payload : ReportData) (failed : bool)
| EvUpsertInfractions (rows : list InfractionRow) (failed : bool)
| EvFormError (msg : string)
| EvAlert (msg : string).

Record World : Type := mkWorld
  { store : Store;
    fails : nat -> option RemoteError;   (* the error of the n-th store call, if any *)
    calls : nat;
    rng : nat -> string;                 (* the n-th token the generator yields *)
    draws : nat;
    trace : list Event }.


Definition emit (e : Event) (w : World) : World :=
  mkWorld (store w) (fails w) (calls w) (rng w) (draws w) (trace w ++ [e]).

Definition nanoid : M World string :=
  fun w =>
    let token := rng w (draws w) in
    (token, mkWorld (store w) (fails w) (calls w) (rng w) (S (draws w))
                    (trace w ++ [EvNanoid token])).

(** A store call: the oracle decides whether it returns an error; a failed
    call leaves the tables as they are. *)
Definition remote {A : Type} (ev : bool -> Event) (effect : Store -> Store)
           (result : Store -> A) : M World (Response A) :=
  fun w =>
    match fails w (calls w) with
    | Some e =>
        (errored e,
         mkWorld (store w) (fails w) (S (calls w)) (rng w) (draws w)
                 (trace w ++ [ev true]))
    | None =>
        (succeeded (result (store w)),
         mkWorld (effect (store w)) (fails w) (S (calls w)) (rng w) (draws w)
                 (trace w ++ [ev false]))
    end.

(** [.from('infractions').insert(rows).select('uid')] *)
Definition insertInfractions (payload : list InfractionData) : M World (Response (list Uid)) :=
  remote (EvInsertInfractions payload) (store_insert_infractions payload)
         (fun s => map uid (fresh_rows (next_infraction_uid s) payload)).

(** [.from('geotranote_reports').insert([row]).select('uid').single()] *)
Definition insertReport (payload : ReportData) : M World (Response Uid) :=
  remote (EvInsertReport payload) (store_insert_report payload) next_report_uid.

(** [.from('infractions').upsert(rows)] *)
Definition upsertInfractions (rows : list InfractionRow) : M World (Response unit) :=
  remote (EvUpsertInfractions rows) (store_upsert_infractions rows) (fun _ => tt).

Definition alert (msg : string) : M World unit :=
  fun w => (tt, emit (EvAlert msg) w).

(** [setFormError(msg)] with a message: the form shows it. *)
Definition showFormError (msg : string) (st : State) : M World State :=
  fun w => (setFormError (Some msg) st, emit (EvFormError msg) w).

(** *** [handleSubmit] *)

(** [insertedInfractions.map((infraction, index) => ...)]; reading a field
    of [infractions[index]] past the end of the list throws. *)
Fixpoint updatedInfractions (insertedInfractions : list Uid) (index : nat)
         (reportUid : Uid) (infractions : list Infraction) : option (list InfractionRow) :=
  match insertedInfractions with
  | [] => Some []
  | infraction :: tl =>
      match nth_error infractions index with
      | None => None
      | Some pending =>
          match updatedInfractions tl (S index) reportUid infractions with
          | None => None
          | Some rows =>
              Some (mkInfractionRow infraction (Some reportUid)
                                    (infraction_type pending) (quantity pending) :: rows)
          end
      end
  end.

(** [infractions.map(infraction => ({ infraction_type, quantity }))] *)
Definition infractionData (pending : list Infraction) : list InfractionData :=
  map (fun infraction =>
         mkInfractionData (infraction_type infraction) (quantity infraction))
      pending.

Definition reportPayload (st : State) (newProtocolNumber : string) : ReportData :=
  mkReportData (service_name (formData st)) (sector (formData st))
               (car_removals (formData st)) (motorcycle_removals (formData st))
               (total_approaches (formData st)) newProtocolNumber.

(** The text of the receipt, with the protocol number spliced in. *)
Definition savedMessage (newProtocolNumber : string) : string :=
  ("Formulário salvo com sucesso! Número de protocolo: " ++ newProtocolNumber)%string.

(** The end of the [try] block. *)
Definition saved (newProtocolNumber : string) (st : State) : M World State :=
  let st := setProtocolNumber (Some newProtocolNumber) st in
  _ <- alert (savedMessage newProtocolNumber) ;;
  let st := setFormData defaultFormData st in
  ret (setInfractions [] st).

(** The [catch] block. *)
Definition caught (st : State) : M World State :=
  showFormError "Erro ao salvar os dados. Por favor, tente novamente." st.

Definition handleSubmit (st0 : State) : M World State :=
  let st := setProtocolNumber None (setFormError None st0) in
  newProtocolNumber <- nanoid ;;
  if (0 <? List.length (infractions st))%nat then
    r1 <- insertInfractions (infractionData (infractions st)) ;;
    match error r1 with
    | Some _ => caught st
    | None =>
        r2 <- insertReport (reportPayload st newProtocolNumber) ;;
        match error r2 with
        | Some _ => showFormError "Erro ao salvar o formulário." st
        | None =>
            match data r2, data r1 with
            | Some reportData, Some insertedInfractions =>
                match updatedInfractions insertedInfractions 0 reportData (infractions st) with
                | None => caught st
                | Some rows =>
                    r3 <- upsertInfractions rows ;;
                    match error r3 with
                    | Some _ => showFormError "Erro ao atualizar as infrações." st
                    | None => saved newProtocolNumber st
                    end
                end
            | _, _ => saved newProtocolNumber st
            end
        end
    end
  else
    r2 <- insertReport (reportPayload st newProtocolNumber) ;;
    match error r2 with
    | Some _ => showFormError "Erro ao salvar o formulário." st
    | None => saved newProtocolNumber st
    end.

(** *** [handleAddInfraction] *)

Definition handleAddInfraction (st : State) : State :=
  if truthy (selectedInfraction st) && (0 <? quantity_input st)%Z then
    let st1 :=
      setInfractions
        (infractions st ++ [mkInfraction (selectedInfraction st) (quantity_input st) None])
        st in
    let st2 := setSelectedInfraction "" st1 in
    let st3 := setSearchTerm "" st2 in
    let st4 := setQuantity 1 st3 in
    setIsSidebarOpen false st4
  else st.

(** *** The states and worlds a submission ends in *)

(** The form state when a run stops with the message [msg]. *)
Definition rejected (msg : string) (st : State) : State :=
  setFormError (Some msg) (setProtocolNumber None (setFormError None st)).

(** The form state when a run ends with the protocol number [p]. *)
Definition accepted (p : string) (st : State) : State :=
  setInfractions []
    (setFormData defaultFormData
       (setProtocolNumber (Some p)
          (setProtocolNumber None (setFormError None st)))).

(** The world after a run that drew one token, made [n] store calls, left
    the store [s] and emitted the events [evs]. *)
Definition advance (s : Store) (n : nat) (evs : list Event) (w : World) : World :=
  mkWorld s (fails w) (n + calls w) (rng w) (S (draws w)) (trace w ++ evs).

(** *** Repeated submissions *)

(** The user submits the form again and again, filling it in between: the
    protocol numbers shown after the submissions that succeeded. *)
Fixpoint submissions (forms : list State) (w : World) : list string * World :=
  match forms with
  | [] => ([], w)
  | st :: tl =>
      let (st', w') := handleSubmit st w in
      let (ps, w'') := submissions tl w' in
      (match protocolNumber st' with Some p => p :: ps | None => ps end, w'')
  end.

(** The rows a submission is to leave for its pending entries: the i-th row
    has the i-th generated identifier, the type and quantity of the i-th
    pending entry, and the reference to the report. *)
Fixpoint bound_rows (from : Uid) (reportUid : Uid) (pending : list Infraction)
  : list InfractionRow :=
  match pending with
  | [] => []
  | p :: tl =>
      mkInfractionRow from (Some reportUid) (infraction_type p) (quantity p)
        :: bound_rows (S from) reportUid tl
  end.

(** Store invariant: every identifier in the infraction table was generated
    before the next one to be generated. *)
Definition store_wf (s : Store) : Prop :=
  Forall (fun r => uid r < next_infraction_uid s)%nat (tbl_infractions s).

(** The user-facing messages among the events of a run. *)
Definition surfaced (evs : list Event) : list string :=
  flat_map (fun e => match e with
                     | EvFormError m => [m]
                     | EvAlert m => [m]
                     | _ => []
                     end) evs.

End Form.

(** ** Sample data *)

Module Sample.

(** The form of the specification's scenario. *)
Definition form : Form.State :=
  Form.mkState (Form.mkFormData Form.ordinario Form.GEOTRAN_1_Distrito 2 1 5)
               [Form.mkInfraction "X" 3 None]
               false "" 1 "" false None None None.

Definition form_two : Form.State :=
  Form.mkState (Form.mkFormData Form.ras Form.GEDAM 0 4 9)
               [Form.mkInfraction "X" 3 None; Form.mkInfraction "Y" 1 None]
               false "" 1 "" false None None None.

(** A store that already holds an unbound infraction row and a report. *)
Definition store : Form.Store :=
  Form.mkStore
    [Form.mkReportRow 0 (Form.mkReportData Form.operacao Form.ROMU 1 0 2 "k3Jf0")]
    [Form.mkInfractionRow 0 None "old" 7]
    1 1.

Definition reliable : nat -> option RemoteError := fun _ => None.

(** Only the [k]-th store call fails. *)
Definition failing_at (k : nat) : nat -> option RemoteError :=
  fun n => if (n =? k)%nat then Some (mkRemoteError true "network") else None.

(** A generator that yields a different token at every draw. *)
Fixpoint numbered (n : nat) : string :=
  match n with
  | O => "t"
  | S k => ("a" ++ numbered k)%string
  end.

Definition world (fails : nat -> option RemoteError) (rng : nat -> string) : Form.World :=
  Form.mkWorld store fails 0 rng 0 [].

(** The dashboard side: three reports, one without an identifier. *)
Definition parse (s : string) : Dashboard.Timestamp :=
  if s =? "2024-03-01" then 100%Z
  else if s =? "2024-03-31T23:59:59" then 200%Z
  else 0%Z.

Definition table : list Dashboard.Report :=
  [ Dashboard.mkReport (Some "r1") "ras" 2 1 5 120%Z;
    Dashboard.mkReport (Some "r2") "ordinario" 0 3 4 150%Z;
    Dashboard.mkReport None "ras" 1 1 1 180%Z;
    Dashboard.mkReport (Some "r4") "ras" 7 7 7 250%Z ].

Definition board (fails : nat -> option RemoteError) : Dashboard.World :=
  Dashboard.mkWorld table
    [Dashboard.mkInfractionRow 3 (Some "r1"); Dashboard.mkInfractionRow 2 None;
     Dashboard.mkInfractionRow 4 (Some "r2")]
    parse fails 0 [].

Definition march_ras : Dashboard.State :=
  Dashboard.mkState [] [Dashboard.mkInfraction 9 "stale"] true None Dashboard.ras
                    (Dashboard.mkDateRange "2024-03-01" "2024-03-31").

Definition march_operacao : Dashboard.State :=
  Dashboard.mkState [] [Dashboard.mkInfraction 9 "stale"] true None Dashboard.operacao
                    (Dashboard.mkDateRange "2024-03-01" "2024-03-31").

End Sample.

(** ** The rest of the form component *)

(** [hay.includes(needle)]: [needle] occurs in [hay] as a contiguous run. *)
Fixpoint includes (hay needle : string) : bool :=
  if String.prefix needle hay then true
  else match hay with
       | EmptyString => false
       | String _ tl => includes tl needle
       end.

(** [copy.splice(index, 1)] for an index of the rendered rows: the element
    at [index] is taken out; past the end nothing is. *)
Fixpoint splice_one {A : Type} (index : nat) (l : list A) : list A :=
  match l, index with
  | [], _ => []
  | _ :: tl, O => tl
  | x :: tl, S i => x :: splice_one i tl
  end.

Module FormUI.

Definition setIsDropdownOpen (v : bool) (st : Form.State) : Form.State :=
  Form.mkState (Form.formData st) (Form.infractions st) (Form.isSidebarOpen st)
               (Form.selectedInfraction st) (Form.quantity_input st) (Form.searchTerm st)
               v (Form.formError st) (Form.protocolNumber st) (Form.supabaseError st).

(** The values the [useState] calls start from. *)
Definition initialState : Form.State :=
  Form.mkState (Form.mkFormData Form.ordinario Form.GEOTRAN_1_Distrito 0 0 0)
               [] false "" 1 "" false None None None.

Definition handleRemoveInfraction (index : nat) (st : Form.State) : Form.State :=
  let newInfractions := splice_one index (Form.infractions st) in
  Form.setInfractions newInfractions st.

Definition handleSelectInfraction (infraction : string) (st : Form.State) : Form.State :=
  setIsDropdownOpen false
    (Form.setSearchTerm infraction (Form.setSelectedInfraction infraction st)).

Definition closeSidebar (st : Form.State) : Form.State :=
  Form.setSelectedInfraction ""
    (Form.setSearchTerm "" (Form.setIsSidebarOpen false st)).

Section WithCatalog.

(** The catalog imported from [infractionOptions], and [String.prototype.toLowerCase]. *)
Variable infractionOptions : list string.
Variable toLowerCase : string -> string.

Definition filteredInfractions (st : Form.State) : list string :=
  filter (fun infraction =>
            includes (toLowerCase infraction) (toLowerCase (Form.searchTerm st)))
         infractionOptions.

(** What the user can do with the rendered form. *)
Inductive Action : Type :=
| ChangeService (v : Form.ServiceType)
| ChangeSector (v : Form.SectorType)
| ChangeApproaches (v : Z)
| ChangeCars (v : Z)
| ChangeMotorcycles (v : Z)
| OpenSidebar
| CloseSidebar
| TypeSearch (text : string)
| ClickSearch
| ClickOutside
| ClickOption (k : nat)          (* the k-th item of the rendered dropdown *)
| ChangeQuantity (v : Z)
| Confirm
| Remove (index : nat)
| Submit.

Definition step (a : Action) (st : Form.State) : M Form.World Form.State :=
  let fd := Form.formData st in
  match a with
  | ChangeService v =>
      ret (Form.setFormData
             (Form.mkFormData v (Form.sector fd) (Form.car_removals fd)
                              (Form.motorcycle_removals fd) (Form.total_approaches fd)) st)
  | ChangeSector v =>
      ret (Form.setFormData
             (Form.mkFormData (Form.service_name fd) v (Form.car_removals fd)
                              (Form.motorcycle_removals fd) (Form.total_approaches fd)) st)
  | ChangeApproaches v =>
      ret (Form.setFormData
             (Form.mkFormData (Form.service_name fd) (Form.sector fd) (Form.car_removals fd)
                              (Form.motorcycle_removals fd) v) st)
  | ChangeCars v =>
      ret (Form.setFormData
             (Form.mkFormData (Form.service_name fd) (Form.sector fd) v
                              (Form.motorcycle_removals fd) (Form.total_approaches fd)) st)
  | ChangeMotorcycles v =>
      ret (Form.setFormData
             (Form.mkFormData (Form.service_name fd) (Form.sector fd) (Form.car_removals fd)
                              v (Form.total_approaches fd)) st)
  | OpenSidebar => ret (Form.setIsSidebarOpen true st)
  | CloseSidebar => ret (closeSidebar st)
  | TypeSearch text => ret (setIsDropdownOpen true (Form.setSearchTerm text st))
  | ClickSearch => ret (setIsDropdownOpen true st)
  | ClickOutside => ret (setIsDropdownOpen false st)
  | ClickOption k =>
      (* the items exist only while the dropdown is open *)
      if Form.isDropdownOpen st then
        match nth_error (filteredInfractions st) k with
        | Some infraction => ret (handleSelectInfraction infraction st)
        | None => ret st
        end
      else ret st
  | ChangeQuantity v => ret (Form.setQuantity v st)
  | Confirm => ret (Form.handleAddInfraction st)
  | Remove index => ret (handleRemoveInfraction index st)
  | Submit => Form.handleSubmit st
  end.

(** A session: the actions one after the other. *)
Fixpoint session (actions : list Action) (st : Form.State) : M Form.World Form.State :=
  match actions with
  | [] => ret st
  | a :: tl => st' <- step a st ;; session tl st'
  end.

(** A pending entry as the data model wants it. *)
Definition entry_ok (i : Form.Infraction) : Prop :=
  In (Form.infraction_type i) infractionOptions /\
  Form.infraction_type i <> "" /\
  (0 < Form.quantity i)%Z.

Definition data_ok (d : Form.InfractionData) : Prop :=
  In (Form.id_infraction_type d) infractionOptions /\
  Form.id_infraction_type d <> "" /\
  (0 < Form.id_quantity d)%Z.

(** The pending entries are good, and the selection is empty or from the
    catalog. *)
Definition pending_inv (st : Form.State) : Prop :=
  Forall entry_ok (Form.infractions st) /\
  (Form.selectedInfraction st = "" \/ In (Form.selectedInfraction st) infractionOptions).

(** Every batch sent between two worlds holds good entries only. *)
Definition batches_ok (w w' : Form.World) : Prop :=
  exists evs,
    Form.trace w' = Form.trace w ++ evs /\
    forall payload failed,
      In (Form.EvInsertInfractions payload failed) evs -> Forall data_ok payload.

End WithCatalog.

End FormUI.

(** ** What the filtered dashboard renders *)

Module DashboardView.

Inductive View : Type :=
| Spinner
| ErrorView (msg : string)
| Tiles (approaches infractions removals cars motorcycles : float).

(** The two early returns and the tiles; [error] is shown when it is a
    non-empty string. *)
Definition view (st : Dashboard.State) : View :=
  if Dashboard.loading st then Spinner
  else
    let tiles :=
      Tiles (Dashboard.totalApproaches (Dashboard.reports st))
            (Dashboard.totalInfractions (Dashboard.infractions st))
            (Dashboard.totalRemovals (Dashboard.reports st))
            (Dashboard.totalCarRemovals (Dashboard.reports st))
            (Dashboard.totalMotorcycleRemovals (Dashboard.reports st)) in
    match Dashboard.error_message st with
    | Some msg => if truthy msg then ErrorView msg else tiles
    | None => tiles
    end.

End DashboardView.

(** ** The navigation bar of [App] *)

Module Nav.

(** The [to] of the links the bar shows: the brand link, then the links of
    the session branch. *)
Definition links {Session : Type} (session : option Session) : list string :=
  "/" :: (if Routes.present session then ["/form"; "/dashboard"] else ["/login"]).

Definition is_page (e : option Routes.Element) : bool :=
  match e with
  | Some (Routes.Navigate _) => false
  | Some _ => true
  | None => false
  end.

End Nav.

(** ** More sample data *)

Module Sample2.

Definition catalog : list string := ["Avanço de sinal"; "Estacionamento irregular"; "Sem capacete"].

(** [toLowerCase] on the strings of this module, whose only capital letters
    are among A to Z: those letters in lower case, every other byte
    unchanged.  It stands for [toLowerCase] on no other string. *)
Definition lower_ascii (c : Ascii.ascii) : Ascii.ascii :=
  let n := Ascii.nat_of_ascii c in
  if ((65 <=? n) && (n <=? 90))%nat then Ascii.ascii_of_nat (n + 32) else c.

Fixpoint lower (s : string) : string :=
  match s with
  | EmptyString => EmptyString
  | String c tl => String (lower_ascii c) (lower tl)
  end.

Definition inverted : Dashboard.State :=
  Dashboard.mkState [] [Dashboard.mkInfraction 9 "stale"] true None Dashboard.all
                    (Dashboard.mkDateRange "2024-03-01" "2024-02-01").

Definition showing_error : Dashboard.State :=
  Dashboard.mkState [] [] false (Some "network") Dashboard.ras
                    (Dashboard.mkDateRange "2024-03-01" "2024-03-31").

End Sample2.

(** * Properties *)

(** ** Additions of counts are exact *)

Lemma shl_succ (m : positive) (k : nat) : shl m (S k) = xO (shl m k).
Proof. reflexivity. Qed.

Lemma shl_add (m : positive) (j k : nat) : shl (shl m j) k = shl m (k + j).
Proof. unfold shl. now rewrite Nat.iter_add. Qed.

Lemma shl_plus (a b : positive) (k : nat) :
  (shl a k + shl b k)%positive = shl (a + b) k.
Proof.
  induction k as [|k IH]; [reflexivity|]. rewrite !shl_succ, <- IH. reflexivity.
Qed.

Lemma shl_value (m : positive) (k : nat) :
  Zpos (shl m k) = (Zpos m * 2 ^ Z.of_nat k)%Z.
Proof.
  induction k as [|k IH]; [simpl; lia|].
  rewrite shl_succ, Pos2Z.inj_xO, IH, Nat2Z.inj_succ, Z.pow_succ_r by lia. lia.
Qed.

Lemma digits_shl (m : positive) (k : nat) :
  Zpos (digits2_pos (shl m k)) = (Zpos (digits2_pos m) + Z.of_nat k)%Z.
Proof.
  induction k as [|k IH]; [simpl; lia|]. rewrite shl_succ. cbn [digits2_pos].
  rewrite Pos2Z.inj_succ, IH. lia.
Qed.

Lemma digits_bounds (p : positive) :
  (2 ^ (Zpos (digits2_pos p) - 1) <= Zpos p < 2 ^ Zpos (digits2_pos p))%Z.
Proof.
  induction p as [p IH|p IH|]; cbn [digits2_pos]; rewrite ?Pos2Z.inj_succ.
  - replace (Z.succ (Zpos (digits2_pos p)) - 1)%Z
      with (Z.succ (Zpos (digits2_pos p) - 1)) by lia.
    rewrite !Z.pow_succ_r by lia. lia.
  - replace (Z.succ (Zpos (digits2_pos p)) - 1)%Z
      with (Z.succ (Zpos (digits2_pos p) - 1)) by lia.
    rewrite !Z.pow_succ_r by lia. lia.
  - simpl. lia.
Qed.

Lemma digits_le_53 (p : positive) :
  (Zpos p < 2 ^ 53)%Z -> (Zpos (digits2_pos p) <= 53)%Z.
Proof.
  intros H. destruct (digits_bounds p) as [Hl _].
  destruct (Z_le_gt_dec (Zpos (digits2_pos p)) 53) as [|Hgt]; [assumption|].
  assert (2 ^ 53 <= 2 ^ (Zpos (digits2_pos p) - 1))%Z by (apply Z.pow_le_mono_r; lia).
  lia.
Qed.

Lemma pos_iter_shl (m d : positive) : Pos.iter xO m d = shl m (Pos.to_nat d).
Proof. apply Pos2Nat.inj_iter. Qed.

Lemma iter_pos_nat {A : Type} (f : A -> A) (p : positive) :
  forall x, SpecFloat.iter_pos f p x = Nat.iter (Pos.to_nat p) f x.
Proof.
  induction p as [p IH|p IH|]; intros x; cbn [SpecFloat.iter_pos].
  - rewrite !IH, Pos2Nat.inj_xI. rewrite <- Nat.iter_succ_r.
    rewrite <- Nat.iter_add. f_equal. lia.
  - rewrite !IH, Pos2Nat.inj_xO. rewrite <- Nat.iter_add. f_equal. lia.
  - reflexivity.
Qed.

Lemma shr_shl (M : positive) (q : nat) :
  Nat.iter q shr_1 (Build_shr_record (Zpos (shl M q)) false false)
  = Build_shr_record (Zpos M) false false.
Proof.
  induction q as [|q IH]; [reflexivity|].
  rewrite Nat.iter_succ_r. rewrite shl_succ. cbn [shr_1 orb]. exact IH.
Qed.

Lemma fexp_eq (x : Z) : fexp prec emax x = Z.max (x - 53) (-1074).
Proof. reflexivity. Qed.

(** Rounding a 53-bit mantissa that was shifted left by [q] bits, at an
    exponent lowered by [q], gives the mantissa back: nothing is lost. *)
Lemma round_aux_shifted (M : positive) (e : Z) (q : nat) :
  Zpos (digits2_pos M) = 53%Z -> (-1074 <= e <= 971)%Z ->
  binary_round_aux prec emax false (Zpos (shl M q)) (e - Z.of_nat q) loc_Exact
  = S754_finite false M e.
Proof.
  intros HM He.
  assert (Hfexp : forall x, fexp prec emax (53 + x) = Z.max x (-1074)).
  { intros x. rewrite fexp_eq. f_equal. lia. }
  assert (Hshr : shr_fexp prec emax (Zpos (shl M q)) (e - Z.of_nat q) loc_Exact
                 = (Build_shr_record (Zpos M) false false, e)).
  { unfold shr_fexp. cbn [Zdigits2]. rewrite digits_shl, HM.
    replace (53 + Z.of_nat q + (e - Z.of_nat q))%Z with (53 + e)%Z by lia.
    rewrite Hfexp. rewrite Z.max_l by lia.
    replace (e - (e - Z.of_nat q))%Z with (Z.of_nat q) by lia.
    cbn [shr_record_of_loc]. unfold shr.
    destruct q as [|q].
    - cbn [Z.of_nat]. rewrite Z.sub_0_r. reflexivity.
    - cbn [Z.of_nat]. rewrite iter_pos_nat, SuccNat2Pos.id_succ, shr_shl.
      f_equal. rewrite Zpos_P_of_succ_nat. lia. }
  unfold binary_round_aux. rewrite Hshr.
  cbn [shr_m loc_of_shr_record round_nearest_even].
  assert (Hshr0 : shr_fexp prec emax (Zpos M) e loc_Exact
                  = (Build_shr_record (Zpos M) false false, e)).
  { unfold shr_fexp. cbn [Zdigits2]. rewrite HM, Hfexp, Z.max_l by lia.
    rewrite Z.sub_diag. reflexivity. }
  rewrite Hshr0. cbn [shr_m].
  replace (e <=? emax - prec)%Z with true; [reflexivity|].
  symmetry. apply Z.leb_le. unfold emax, prec. lia.
Qed.

Lemma round_scaled (m : positive) (j : nat) :
  (Zpos (digits2_pos m) <= 53)%Z ->
  binary_round prec emax false (shl m j) (- Z.of_nat j) = canon m.
Proof.
  intros Hd. unfold canon. set (d := Zpos (digits2_pos m)) in *.
  assert (Hd1 : (1 <= d)%Z) by (unfold d; lia).
  set (M := shl m (Z.to_nat (53 - d))).
  assert (HM : Zpos (digits2_pos M) = 53%Z).
  { unfold M. rewrite digits_shl. fold d. lia. }
  unfold binary_round. rewrite digits_shl. fold d.
  replace (d + Z.of_nat j + - Z.of_nat j)%Z with (53 + (d - 53))%Z by lia.
  replace (fexp prec emax (53 + (d - 53))) with (d - 53)%Z.
  2:{ rewrite fexp_eq. lia. }
  unfold shl_align.
  destruct (d - 53 - - Z.of_nat j)%Z as [|q|q] eqn:Hq.
  - replace (shl m j) with (shl M 0).
    2:{ unfold M. replace j with (Z.to_nat (53 - d)) by lia. reflexivity. }
    replace (- Z.of_nat j)%Z with (d - 53 - Z.of_nat 0)%Z
      by (change (Z.of_nat 0) with 0%Z; lia).
    apply round_aux_shifted; [exact HM | lia].
  - replace (shl m j) with (shl M (Pos.to_nat q)).
    2:{ unfold M. rewrite shl_add. f_equal. lia. }
    replace (- Z.of_nat j)%Z with (d - 53 - Z.of_nat (Pos.to_nat q))%Z by lia.
    apply round_aux_shifted; [exact HM | lia].
  - rewrite pos_iter_shl, shl_add.
    replace (shl m (Pos.to_nat q + j)) with (shl M 0).
    2:{ unfold M. replace (Pos.to_nat q + j)%nat with (Z.to_nat (53 - d)) by lia.
        reflexivity. }
    replace (d - 53)%Z with (d - 53 - Z.of_nat 0)%Z at 1
      by (change (Z.of_nat 0) with 0%Z; lia).
    apply round_aux_shifted; [exact HM | lia].
Qed.

Lemma normalize_pos (p : positive) :
  (Zpos p < 2 ^ 53)%Z -> binary_normalize prec emax (Zpos p) 0 false = canon p.
Proof.
  intros H. cbn [binary_normalize]. exact (round_scaled p 0 (digits_le_53 p H)).
Qed.

(** The specification of the addition, on two positive integers whose sum
    is below [2^53]: the result represents the sum. *)
Lemma SFadd_canon (a b : positive) :
  (Zpos a + Zpos b < 2 ^ 53)%Z ->
  SF64add (canon a) (canon b) = canon (a + b).
Proof.
  intros H.
  assert (Ha : (Zpos (digits2_pos a) <= 53)%Z) by (apply digits_le_53; lia).
  assert (Hb : (Zpos (digits2_pos b) <= 53)%Z) by (apply digits_le_53; lia).
  assert (Hab : (Zpos (digits2_pos (a + b)) <= 53)%Z) by (apply digits_le_53; lia).
  unfold SF64add, canon at 1 2, SFadd.
  set (da := Zpos (digits2_pos a)) in *. set (db := Zpos (digits2_pos b)) in *.
  assert (1 <= da)%Z by (unfold da; lia). assert (1 <= db)%Z by (unfold db; lia).
  set (ez := Z.min (da - 53) (db - 53)).
  set (J := Z.to_nat (- ez)).
  assert (Hfa : fst (shl_align (shl a (Z.to_nat (53 - da))) (da - 53) ez) = shl a J).
  { unfold shl_align. destruct (ez - (da - 53))%Z as [|q|q] eqn:Hq; cbn [fst].
    - f_equal. unfold J. lia.
    - unfold ez in Hq. lia.
    - rewrite pos_iter_shl, shl_add. f_equal. unfold J. lia. }
  assert (Hfb : fst (shl_align (shl b (Z.to_nat (53 - db))) (db - 53) ez) = shl b J).
  { unfold shl_align. destruct (ez - (db - 53))%Z as [|q|q] eqn:Hq; cbn [fst].
    - f_equal. unfold J. lia.
    - unfold ez in Hq. lia.
    - rewrite pos_iter_shl, shl_add. f_equal. unfold J. lia. }
  rewrite Hfa, Hfb. cbn [cond_Zopp]. rewrite <- Pos2Z.inj_add, shl_plus.
  cbn [binary_normalize].
  replace ez with (- Z.of_nat J)%Z by (unfold J, ez; lia).
  apply round_scaled. exact Hab.
Qed.

Lemma of_int_spec (n : Z) :
  (0 <= n < 2 ^ 53)%Z ->
  Prim2SF (of_int n) = binary_normalize prec emax n 0 false.
Proof.
  intros H. unfold of_int. rewrite of_uint63_spec, Uint63.of_Z_spec.
  rewrite Z.mod_small; [reflexivity|]. change Uint63.wB with (2 ^ 63)%Z.
  assert (2 ^ 53 < 2 ^ 63)%Z by (apply Z.pow_lt_mono_r; lia). lia.
Qed.

(** The primitive addition of the numbers of two non-negative integers is
    the number of their sum, as long as the sum is below [2^53]. *)
Lemma of_int_add (a b : Z) :
  (0 <= a)%Z -> (0 <= b)%Z -> (a + b < 2 ^ 53)%Z ->
  (of_int a + of_int b)%float = of_int (a + b).
Proof.
  intros Ha Hb H. apply Prim2SF_inj. rewrite FloatAxioms.add_spec.
  rewrite !of_int_spec by lia.
  destruct a as [|pa|pa]; [| | lia].
  - cbn [binary_normalize Z.add]. destruct b as [|pb|pb]; [reflexivity| | lia].
    rewrite normalize_pos by lia. reflexivity.
  - destruct b as [|pb|pb]; [| | lia].
    + rewrite Z.add_0_r. rewrite normalize_pos by lia. reflexivity.
    + rewrite !normalize_pos by lia. cbn [Z.add]. rewrite normalize_pos by lia.
      apply SFadd_canon. lia.
Qed.

Lemma to_int_of_int (n : Z) :
  (0 <= n < 2 ^ 53)%Z -> to_int (of_int n) = n.
Proof.
  intros H. unfold to_int. rewrite of_int_spec by exact H.
  destruct n as [|p|p]; [reflexivity| | lia].
  rewrite normalize_pos by lia. unfold canon.
  pose proof (digits_le_53 p (proj2 H)) as Hd.
  set (d := Zpos (digits2_pos p)) in *.
  assert (Hd1 : (1 <= d)%Z) by (unfold d; lia).
  rewrite shl_value, Z2Nat.id by lia.
  replace (d - 53)%Z with (- (53 - d))%Z by lia.
  rewrite Z.shiftl_opp_r, Z.shiftr_div_pow2 by lia.
  apply Z.div_mul. apply Z.pow_nonzero; lia.
Qed.

Lemma safe_below : (MAX_SAFE_INTEGER < 2 ^ 53)%Z.
Proof. reflexivity. Qed.

Lemma is_count_of_int (n : Z) :
  (0 <= n <= MAX_SAFE_INTEGER)%Z -> is_count (of_int n).
Proof.
  intros H. pose proof safe_below. unfold is_count.
  rewrite to_int_of_int by lia. split; [exact H | reflexivity].
Qed.

Lemma count_sum_nonneg (l : list float) :
  Forall is_count l -> (0 <= count_sum l)%Z.
Proof.
  unfold count_sum. induction 1 as [|x l [Hx _] _ IH]; simpl; lia.
Qed.

Lemma count_sum_cons (x : float) (l : list float) :
  count_sum (x :: l) = (to_int x + count_sum l)%Z.
Proof. reflexivity. Qed.

Lemma count_sum_one (x : float) : count_sum [x] = to_int x.
Proof. unfold count_sum. cbn [map Zsum fold_right]. apply Z.add_0_r. Qed.

Lemma count_sum_app (l1 l2 : list float) :
  count_sum (l1 ++ l2) = (count_sum l1 + count_sum l2)%Z.
Proof.
  unfold count_sum. induction l1 as [|x l1 IH]; simpl; [reflexivity | rewrite IH; lia].
Qed.

(** Adding counts one after the other, starting from the number of [n],
    gives the number of the exact total, as long as that total is safe. *)
Lemma add_counts_exact (l : list float) :
  forall n,
    (0 <= n)%Z -> Forall is_count l -> (n + count_sum l <= MAX_SAFE_INTEGER)%Z ->
    fold_left PrimFloat.add l (of_int n) = of_int (n + count_sum l).
Proof.
  pose proof safe_below as Hsafe.
  induction l as [|x l IH]; intros n Hn Hl Hsum.
  - unfold count_sum. simpl. now rewrite Z.add_0_r.
  - inversion Hl as [|? ? [[Hx0 Hx1] Hx] Hl']; subst.
    pose proof (count_sum_nonneg l Hl') as Hnn.
    rewrite count_sum_cons in *. cbn [fold_left].
    rewrite <- Hx at 1. rewrite of_int_add by lia.
    rewrite IH by (try assumption; lia). f_equal. lia.
Qed.

(** ** Sums and groups *)

Lemma Zsum_cons (x : Z) (l : list Z) : Zsum (x :: l) = (x + Zsum l)%Z.
Proof. reflexivity. Qed.

Lemma Zsum_app (l1 l2 : list Z) : Zsum (l1 ++ l2) = (Zsum l1 + Zsum l2)%Z.
Proof.
  induction l1 as [|x l1 IH]; simpl; [reflexivity | rewrite IH; lia].
Qed.

Lemma first_seen_In (k : string) (l : list string) :
  In k (first_seen l) <-> In k l.
Proof.
  induction l as [|a l IH]; simpl; [tauto|].
  rewrite filter_In, IH, negb_true_iff, String.eqb_neq.
  destruct (String.eqb_spec a k) as [->|Hne]; [tauto|].
  split; [tauto|]. intros [H|H]; [tauto|]. right. split; [exact H|].
  intros ->. apply Hne. reflexivity.
Qed.

Lemma first_seen_NoDup (l : list string) : NoDup (first_seen l).
Proof.
  induction l as [|a l IH]; simpl; constructor.
  - rewrite filter_In, negb_true_iff, String.eqb_neq. tauto.
  - apply NoDup_filter, IH.
Qed.

Lemma first_seen_snoc (l : list string) (k : string) :
  first_seen (l ++ [k]) =
  if existsb (String.eqb k) l then first_seen l else first_seen l ++ [k].
Proof.
  induction l as [|a l IH]; simpl; [reflexivity|].
  rewrite IH. destruct (String.eqb_spec k a) as [->|Hne]; simpl.
  - destruct (existsb (String.eqb a) l); [reflexivity|].
    rewrite filter_app. simpl. rewrite String.eqb_refl. simpl.
    rewrite app_nil_r. reflexivity.
  - destruct (existsb (String.eqb k) l); [reflexivity|].
    rewrite filter_app. simpl.
    destruct (String.eqb_spec k a) as [->|_]; [contradiction|]. reflexivity.
Qed.

Lemma existsb_eqb_In (k : string) (l : list string) :
  existsb (String.eqb k) l = true <-> In k l.
Proof.
  rewrite existsb_exists. split.
  - intros (x & Hx & E). apply String.eqb_eq in E. subst. exact Hx.
  - intros H. exists k. split; [exact H | apply String.eqb_refl].
Qed.

Section GroupFold.

Context {R B : Type}.
Variables (rkey : R -> string) (bkey : B -> string).
Variables (init : R -> B) (merge : R -> B -> B).
Variable summary : string -> list R -> B.

(** [good] singles out the record lists on which merging agrees with the
    summary; it holds of every prefix of a good list. *)
Variable good : list R -> Prop.

Hypothesis good_prefix : forall rs r, good (rs ++ [r]) -> good rs.
Hypothesis summary_key : forall k rs, bkey (summary k rs) = k.
Hypothesis summary_other :
  forall k rs r, rkey r <> k -> summary k (rs ++ [r]) = summary k rs.
Hypothesis summary_new :
  forall rs r, good (rs ++ [r]) -> ~ In (rkey r) (map rkey rs) ->
               summary (rkey r) (rs ++ [r]) = init r.
Hypothesis summary_merge :
  forall rs r, good (rs ++ [r]) -> In (rkey r) (map rkey rs) ->
               summary (rkey r) (rs ++ [r]) = merge r (summary (rkey r) rs).

Lemma find_key_absent (g : string -> B) (k : string) (l : list string) :
  (forall x, bkey (g x) = x) -> ~ In k l ->
  find (fun item => bkey item =? k) (map g l) = None.
Proof.
  intros Hg. induction l as [|a l IH]; simpl; intros Hn; [reflexivity|].
  rewrite Hg. destruct (String.eqb_spec a k) as [->|_]; [tauto|].
  apply IH. tauto.
Qed.

Lemma find_key_present (g : string -> B) (k : string) (l : list string) :
  (forall x, bkey (g x) = x) -> In k l ->
  find (fun item => bkey item =? k) (map g l) = Some (g k).
Proof.
  intros Hg. induction l as [|a l IH]; simpl; intros Hin; [contradiction|].
  rewrite Hg. destruct (String.eqb_spec a k) as [->|Hne]; [reflexivity|].
  apply IH. destruct Hin; [contradiction | assumption].
Qed.

Lemma update_first_unique (g g' : string -> B) (f : B -> B) (k : string) (l : list string) :
  (forall x, bkey (g x) = x) ->
  g' k = f (g k) -> (forall x, x <> k -> g' x = g x) ->
  NoDup l -> In k l ->
  update_first (fun item => bkey item =? k) f (map g l) = map g' l.
Proof.
  intros Hg Hk Hother. induction l as [|a l IH]; simpl; intros Hnd Hin; [contradiction|].
  inversion Hnd as [|? ? Hnotin Hnd']; subst.
  rewrite Hg. destruct (String.eqb_spec a k) as [->|Hne].
  - rewrite Hk. f_equal. apply map_ext_in. intros x Hx. symmetry. apply Hother.
    intros ->. contradiction.
  - rewrite (Hother a Hne). f_equal. apply IH; [exact Hnd'|].
    destruct Hin; [contradiction | assumption].
Qed.

Lemma group_fold_summary (rs : list R) :
  good rs ->
  fold_left (group_step rkey bkey init merge) rs [] =
  map (fun k => summary k rs) (first_seen (map rkey rs)).
Proof.
  induction rs as [|r rs IH] using rev_ind; intros Hgood; [reflexivity|].
  rewrite fold_left_app, IH by (apply good_prefix with r; exact Hgood).
  simpl. unfold group_step.
  rewrite map_app. simpl. rewrite first_seen_snoc.
  destruct (existsb (String.eqb (rkey r)) (map rkey rs)) eqn:E.
  - apply existsb_eqb_In in E.
    rewrite (find_key_present (fun k => summary k rs)); auto.
    2: now apply first_seen_In.
    apply update_first_unique.
    + intros x. apply summary_key.
    + apply summary_merge; [exact Hgood | exact E].
    + intros x Hx. apply summary_other. congruence.
    + apply first_seen_NoDup.
    + now apply first_seen_In.
  - assert (Hn : ~ In (rkey r) (map rkey rs)).
    { intros H. apply existsb_eqb_In in H. congruence. }
    rewrite (find_key_absent (fun k => summary k rs)); auto.
    2: now rewrite first_seen_In.
    rewrite map_app. simpl. rewrite summary_new by assumption. f_equal.
    apply map_ext_in. intros x Hx. symmetry. apply summary_other.
    intros Heq. apply Hn. rewrite Heq. now apply first_seen_In.
Qed.

End GroupFold.

(** The keys of the groups, whatever the groups hold. *)
Section GroupKeys.

Context {R B : Type}.
Variables (rkey : R -> string) (bkey : B -> string).
Variables (init : R -> B) (merge : R -> B -> B).

Hypothesis init_key : forall r, bkey (init r) = rkey r.
Hypothesis merge_key : forall r b, bkey (merge r b) = bkey b.

Lemma update_first_keys (p : B -> bool) (r : R) (acc : list B) :
  map bkey (update_first p (merge r) acc) = map bkey acc.
Proof.
  induction acc as [|b acc IH]; simpl; [reflexivity|].
  destruct (p b); simpl; [rewrite merge_key | rewrite IH]; reflexivity.
Qed.

Lemma group_fold_keys (rs : list R) :
  map bkey (fold_left (group_step rkey bkey init merge) rs []) =
  first_seen (map rkey rs).
Proof.
  induction rs as [|r rs IH] using rev_ind; [reflexivity|].
  rewrite fold_left_app, map_app. cbn [fold_left map]. rewrite first_seen_snoc.
  set (acc := fold_left (group_step rkey bkey init merge) rs []) in *.
  unfold group_step.
  destruct (find (fun item => bkey item =? rkey r) acc) as [b|] eqn:E.
  - rewrite update_first_keys, IH.
    apply find_some in E. destruct E as [Hin Hb]. apply String.eqb_eq in Hb.
    assert (Hk : In (rkey r) (map rkey rs)).
    { apply first_seen_In. rewrite <- IH, <- Hb. apply in_map, Hin. }
    apply existsb_eqb_In in Hk. rewrite Hk. reflexivity.
  - rewrite map_app, IH. cbn [map]. rewrite init_key.
    destruct (existsb (String.eqb (rkey r)) (map rkey rs)) eqn:Ex; [|reflexivity].
    exfalso. apply existsb_eqb_In in Ex. apply first_seen_In in Ex.
    rewrite <- IH in Ex. apply in_map_iff in Ex. destruct Ex as (b & Hb & Hin).
    pose proof (find_none _ _ E b Hin) as Hne. cbn in Hne.
    rewrite Hb, String.eqb_refl in Hne. discriminate.
Qed.

End GroupKeys.

Lemma filter_key_absent {A : Type} (key : A -> string) (k : string) (l : list A) :
  ~ In k (map key l) -> filter (fun r => key r =? k) l = [].
Proof.
  induction l as [|a l IH]; simpl; intros Hn; [reflexivity|].
  destruct (String.eqb_spec (key a) k) as [E|_]; [tauto|].
  apply IH. tauto.
Qed.

Lemma filter_snoc {A : Type} (p : A -> bool) (l : list A) (a : A) :
  filter p (l ++ [a]) = filter p l ++ (if p a then [a] else []).
Proof.
  rewrite filter_app. reflexivity.
Qed.

Lemma serviceTypeData_distribution (reports : list Charts.Report) :
  Charts.serviceTypeData reports = Charts.service_distribution reports.
Proof.
  unfold Charts.serviceTypeData, Charts.service_distribution.
  change Charts.serviceTypeStep with
    (group_step Charts.service_name Charts.name
       (fun r => Charts.mkSlice (Charts.service_name r) 1)
       (fun (_ : Charts.Report) e => Charts.mkSlice (Charts.name e) (Charts.value e + 1))).
  apply (group_fold_summary Charts.service_name Charts.name _ _
           (fun k rs => Charts.mkSlice k
                          (Z.of_nat (List.length (Charts.reports_of_service k rs))))
           (fun _ => True)).
  - trivial.
  - reflexivity.
  - intros k rs r Hne. unfold Charts.reports_of_service. rewrite filter_snoc.
    destruct (String.eqb_spec (Charts.service_name r) k); [contradiction|].
    rewrite app_nil_r. reflexivity.
  - intros rs r _ Hn. unfold Charts.reports_of_service. rewrite filter_snoc.
    rewrite (filter_key_absent Charts.service_name) by exact Hn.
    rewrite String.eqb_refl. reflexivity.
  - intros rs r _ _. unfold Charts.reports_of_service. rewrite filter_snoc.
    rewrite String.eqb_refl. simpl. rewrite length_app. simpl. f_equal. lia.
  - exact I.
Qed.

Lemma of_int_0 : of_int 0 = 0%float.
Proof. reflexivity. Qed.

Lemma sum_counts_exact (l : list float) :
  Forall is_count l -> (count_sum l <= MAX_SAFE_INTEGER)%Z ->
  fold_left PrimFloat.add l 0%float = of_int (count_sum l).
Proof.
  intros Hl Hsum. rewrite <- of_int_0.
  rewrite add_counts_exact by (try assumption; lia). reflexivity.
Qed.

Lemma fold_add_map {A : Type} (f : A -> float) (l : list A) :
  forall x, fold_left (fun sum a => sum + f a)%float l x
            = fold_left PrimFloat.add (map f l) x.
Proof.
  induction l as [|a l IH]; intros x; simpl; [reflexivity | apply IH].
Qed.

Lemma fold_add_pairs {A : Type} (f g : A -> float) (l : list A) :
  forall x, fold_left (fun sum a => sum + f a + g a)%float l x
            = fold_left PrimFloat.add (flat_map (fun a => [f a; g a]) l) x.
Proof.
  induction l as [|a l IH]; intros x; simpl; [reflexivity | apply IH].
Qed.

Lemma count_sum_pairs {A : Type} (f g : A -> float) (l : list A) :
  count_sum (flat_map (fun a => [f a; g a]) l)
  = (count_sum (map f l) + count_sum (map g l))%Z.
Proof.
  induction l as [|a l IH]; [reflexivity|].
  cbn [flat_map map app]. rewrite !count_sum_cons, IH. lia.
Qed.

Lemma Forall_pairs {A : Type} (f g : A -> float) (l : list A) :
  Forall (fun a => is_count (f a) /\ is_count (g a)) l ->
  Forall is_count (flat_map (fun a => [f a; g a]) l).
Proof.
  induction 1 as [|a l [Hf Hg] _ IH]; cbn [flat_map app]; auto.
Qed.

Lemma Forall_counts_map {A : Type} (f : A -> float) (l : list A) :
  Forall (fun a => is_count (f a)) l -> Forall is_count (map f l).
Proof.
  induction 1; cbn [map]; auto.
Qed.

(** A [reduce] that adds one count of every element, starting from 0. *)
Lemma reduce_counts_exact {A : Type} (f : A -> float) (l : list A) :
  Forall (fun a => is_count (f a)) l ->
  (count_sum (map f l) <= MAX_SAFE_INTEGER)%Z ->
  fold_left (fun sum a => sum + f a)%float l 0%float = of_int (count_sum (map f l)).
Proof.
  intros Hl Hsum. rewrite fold_add_map.
  apply sum_counts_exact; [apply Forall_counts_map, Hl | exact Hsum].
Qed.

Lemma count_sum_filter_le {A : Type} (f : A -> float) (p : A -> bool) (l : list A) :
  Forall (fun a => is_count (f a)) l ->
  (0 <= count_sum (map f (filter p l)) <= count_sum (map f l))%Z.
Proof.
  induction 1 as [|a l [[Ha _] _] _ IH]; [unfold count_sum; simpl; lia|].
  cbn [filter map]. destruct (p a); cbn [map]; rewrite ?count_sum_cons; lia.
Qed.

(** Appending a count to a list of counts: the number of the longer sum is
    the number of the shorter sum plus the count. *)
Lemma of_int_snoc (l : list float) (x : float) :
  (0 <= count_sum l)%Z -> is_count x ->
  (count_sum l + to_int x <= MAX_SAFE_INTEGER)%Z ->
  of_int (count_sum (l ++ [x])) = (of_int (count_sum l) + x)%float.
Proof.
  intros Hl [[Hx0 _] Hx] Hsum. pose proof safe_below.
  rewrite count_sum_app, count_sum_one.
  rewrite <- Hx at 2. rewrite of_int_add by lia. reflexivity.
Qed.

Lemma safe_listing_prefix (rs : list Charts.Report) (r : Charts.Report) :
  Charts.safe_listing (rs ++ [r]) -> Charts.safe_listing rs.
Proof.
  unfold Charts.safe_listing. rewrite !map_app, !count_sum_app.
  intros (Hall & Hc & Hm). apply Forall_app in Hall. destruct Hall as [Hrs Hr].
  inversion Hr as [|? ? [[[Hc0 _] _] [[Hm0 _] _]] _]; subst.
  cbn [map] in Hc, Hm. rewrite count_sum_one in Hc, Hm.
  repeat split; [exact Hrs | lia | lia].
Qed.

Lemma removalsBySector_breakdown (reports : list Charts.Report) :
  Charts.safe_listing reports ->
  Charts.removalsBySector reports = Charts.sector_breakdown reports.
Proof.
  unfold Charts.removalsBySector, Charts.sector_breakdown.
  change Charts.removalsStep with
    (group_step Charts.sector Charts.bar_sector
       (fun r => Charts.mkBar (Charts.sector r) (Charts.car_removals r)
                              (Charts.motorcycle_removals r))
       (fun r e => Charts.mkBar (Charts.bar_sector e)
                                (Charts.cars e + Charts.car_removals r)
                                (Charts.motorcycles e + Charts.motorcycle_removals r))).
  apply (group_fold_summary Charts.sector Charts.bar_sector _ _
           (fun k rs =>
              Charts.mkBar k
                (of_int (count_sum (map Charts.car_removals
                                        (Charts.reports_of_sector k rs))))
                (of_int (count_sum (map Charts.motorcycle_removals
                                        (Charts.reports_of_sector k rs)))))
           Charts.safe_listing).
  - exact safe_listing_prefix.
  - reflexivity.
  - intros k rs r Hne. unfold Charts.reports_of_sector. rewrite filter_snoc.
    destruct (String.eqb_spec (Charts.sector r) k); [contradiction|].
    rewrite app_nil_r. reflexivity.
  - intros rs r (Hall & _ & _) Hn. unfold Charts.reports_of_sector.
    rewrite filter_snoc.
    rewrite (filter_key_absent Charts.sector) by exact Hn.
    rewrite String.eqb_refl. cbn [app map].
    apply Forall_app in Hall. destruct Hall as [_ Hr].
    inversion Hr as [|? ? [[_ Hc] [_ Hm]] _]; subst.
    rewrite !count_sum_one, Hc, Hm. reflexivity.
  - intros rs r Hgood _. pose proof (safe_listing_prefix rs r Hgood) as (Hrs & _ & _).
    destruct Hgood as (Hall & Hc & Hm).
    apply Forall_app in Hall. destruct Hall as [_ Hr].
    inversion Hr as [|? ? [Hrc Hrm] _]; subst.
    rewrite !map_app, !count_sum_app in Hc, Hm. cbn [map] in Hc, Hm.
    rewrite count_sum_one in Hc, Hm.
    assert (Hcs : Forall (fun a => is_count (Charts.car_removals a)) rs).
    { eapply Forall_impl; [|exact Hrs]. intros a [Ha _]. exact Ha. }
    assert (Hms : Forall (fun a => is_count (Charts.motorcycle_removals a)) rs).
    { eapply Forall_impl; [|exact Hrs]. intros a [_ Ha]. exact Ha. }
    pose proof (count_sum_filter_le Charts.car_removals
                  (fun a => Charts.sector a =? Charts.sector r) rs Hcs) as Hcle.
    pose proof (count_sum_filter_le Charts.motorcycle_removals
                  (fun a => Charts.sector a =? Charts.sector r) rs Hms) as Hmle.
    unfold Charts.reports_of_sector. rewrite filter_snoc.
    rewrite String.eqb_refl. rewrite !map_app. cbn [map Charts.bar_sector Charts.cars
                                                    Charts.motorcycles].
    rewrite !of_int_snoc by (try assumption; lia). reflexivity.
Qed.

Lemma removalsBySector_sectors (reports : list Charts.Report) :
  map Charts.bar_sector (Charts.removalsBySector reports) =
  first_seen (map Charts.sector reports).
Proof.
  unfold Charts.removalsBySector.
  change Charts.removalsStep with
    (group_step Charts.sector Charts.bar_sector
       (fun r => Charts.mkBar (Charts.sector r) (Charts.car_removals r)
                              (Charts.motorcycle_removals r))
       (fun r e => Charts.mkBar (Charts.bar_sector e)
                                (Charts.cars e + Charts.car_removals r)
                                (Charts.motorcycles e + Charts.motorcycle_removals r))).
  apply group_fold_keys; reflexivity.
Qed.

(** The dashboard scenario of the specification: two reports, sector A with
    2 cars and 1 motorcycle, sector B with 0 cars and 3 motorcycles. *)
Example sector_breakdown_scenario :
  Charts.removalsBySector
    [Charts.mkReport "1" "n" "ordinario" "A" 2 1 "2024-03-02T10:00:00";
     Charts.mkReport "2" "m" "ras" "B" 0 3 "2024-03-01T10:00:00"] =
  [Charts.mkBar "A" 2 1; Charts.mkBar "B" 0 3] /\
  Dashboard.totalRemovals
    [Dashboard.mkReport (Some "1") "ordinario" 2 1 0 20%Z;
     Dashboard.mkReport (Some "2") "ras" 0 3 0 10%Z] = 6%float.
Proof. split; reflexivity. Qed.

Example service_distribution_scenario :
  Charts.serviceTypeData
    [Charts.mkReport "1" "n" "ras" "A" 2 1 "";
     Charts.mkReport "2" "m" "ordinario" "B" 0 3 "";
     Charts.mkReport "3" "n" "ras" "A" 1 1 ""] =
  [Charts.mkSlice "ras" 2; Charts.mkSlice "ordinario" 1].
Proof. reflexivity. Qed.

(** C4, as amended.  The summary tiles and the chart series are functions of
    the report and infraction lists held in memory.  The service-type series
    counts the reports of each service type and the sector series has one
    bar per sector, both with one group per key in first-seen order, for
    every input.  When the counts are non-negative integers whose totals do
    not exceed [Number.MAX_SAFE_INTEGER], the tiles and the bars hold the
    exact sums: total approaches, total car removals, total motorcycle
    removals and total infractions the sums of their fields, total removals
    the sum of car plus motorcycle removals, which is also the sum of the two
    separate totals, and each bar the car and motorcycle sums of its
    sector. *)
Theorem aggregates_exact_for_safe_counts
        (reports : list Dashboard.Report) (infractions : list Dashboard.Infraction)
        (listed : list Charts.Report) :
  Charts.serviceTypeData listed = Charts.service_distribution listed /\
  map Charts.bar_sector (Charts.removalsBySector listed) =
    first_seen (map Charts.sector listed) /\
  (Forall Dashboard.counts_ok reports ->
   (count_sum (map Dashboard.total_approaches reports) <= MAX_SAFE_INTEGER)%Z ->
   (count_sum (map Dashboard.car_removals reports)
    + count_sum (map Dashboard.motorcycle_removals reports) <= MAX_SAFE_INTEGER)%Z ->
   Dashboard.totalApproaches reports =
     of_int (count_sum (map Dashboard.total_approaches reports)) /\
   Dashboard.totalRemovals reports =
     of_int (count_sum (map Dashboard.car_removals reports)
             + count_sum (map Dashboard.motorcycle_removals reports)) /\
   Dashboard.totalRemovals reports =
     (Dashboard.totalCarRemovals reports
      + Dashboard.totalMotorcycleRemovals reports)%float /\
   Dashboard.totalCarRemovals reports =
     of_int (count_sum (map Dashboard.car_removals reports)) /\
   Dashboard.totalMotorcycleRemovals reports =
     of_int (count_sum (map Dashboard.motorcycle_removals reports))) /\
  (Forall (fun inf => is_count (Dashboard.quantity inf)) infractions ->
   (count_sum (map Dashboard.quantity infractions) <= MAX_SAFE_INTEGER)%Z ->
   Dashboard.totalInfractions infractions =
     of_int (count_sum (map Dashboard.quantity infractions))) /\
  (Forall Charts.counts_ok listed ->
   (count_sum (map Charts.car_removals listed) <= MAX_SAFE_INTEGER)%Z ->
   (count_sum (map Charts.motorcycle_removals listed) <= MAX_SAFE_INTEGER)%Z ->
   Charts.removalsBySector listed = Charts.sector_breakdown listed).
Proof.
  split; [apply serviceTypeData_distribution|].
  split; [apply removalsBySector_sectors|].
  split; [|split].
  - intros Hall Happ Hrem. pose proof safe_below as Hsafe.
    assert (Hc : Forall (fun r => is_count (Dashboard.car_removals r)) reports).
    { eapply Forall_impl; [|exact Hall]. intros r (H & _ & _). exact H. }
    assert (Hm : Forall (fun r => is_count (Dashboard.motorcycle_removals r)) reports).
    { eapply Forall_impl; [|exact Hall]. intros r (_ & H & _). exact H. }
    assert (Ha : Forall (fun r => is_count (Dashboard.total_approaches r)) reports).
    { eapply Forall_impl; [|exact Hall]. intros r (_ & _ & H). exact H. }
    pose proof (count_sum_nonneg _ (Forall_counts_map _ _ Hc)) as Hc0.
    pose proof (count_sum_nonneg _ (Forall_counts_map _ _ Hm)) as Hm0.
    assert (Hcar : Dashboard.totalCarRemovals reports
                   = of_int (count_sum (map Dashboard.car_removals reports))).
    { apply reduce_counts_exact; [exact Hc | lia]. }
    assert (Hmoto : Dashboard.totalMotorcycleRemovals reports
                    = of_int (count_sum (map Dashboard.motorcycle_removals reports))).
    { apply reduce_counts_exact; [exact Hm | lia]. }
    assert (Hboth : Dashboard.totalRemovals reports
                    = of_int (count_sum (map Dashboard.car_removals reports)
                              + count_sum (map Dashboard.motorcycle_removals reports))).
    { unfold Dashboard.totalRemovals. rewrite fold_add_pairs.
      rewrite sum_counts_exact.
      - rewrite count_sum_pairs. reflexivity.
      - apply Forall_pairs. eapply Forall_impl; [|exact Hall].
        intros r (H1 & H2 & _). split; assumption.
      - rewrite count_sum_pairs. exact Hrem. }
    repeat split.
    + apply reduce_counts_exact; assumption.
    + exact Hboth.
    + rewrite Hboth, Hcar, Hmoto. symmetry. apply of_int_add; lia.
    + exact Hcar.
    + exact Hmoto.
  - intros Hall Hsum. apply reduce_counts_exact; assumption.
  - intros Hall Hc Hm. apply removalsBySector_breakdown. repeat split; assumption.
Qed.

Lemma aggregates_exact_for_safe_counts_witness :
  Dashboard.totalRemovals
    [Dashboard.mkReport (Some "1") "ordinario" 2 1 5 20%Z;
     Dashboard.mkReport (Some "2") "ras" 0 3 4 10%Z] = of_int (2 + 4) /\
  Dashboard.totalInfractions
    [Dashboard.mkInfraction 2 "1"; Dashboard.mkInfraction 1 "2"] = of_int 3 /\
  Charts.removalsBySector
    [Charts.mkReport "1" "n" "ordinario" "A" 2 1 "2024-03-02T10:00:00";
     Charts.mkReport "2" "m" "ras" "B" 0 3 "2024-03-01T10:00:00"] =
  [Charts.mkBar "A" (of_int 2) (of_int 1); Charts.mkBar "B" (of_int 0) (of_int 3)].
Proof.
  destruct (aggregates_exact_for_safe_counts
              [Dashboard.mkReport (Some "1") "ordinario" 2 1 5 20%Z;
               Dashboard.mkReport (Some "2") "ras" 0 3 4 10%Z]
              [Dashboard.mkInfraction 2 "1"; Dashboard.mkInfraction 1 "2"]
              [Charts.mkReport "1" "n" "ordinario" "A" 2 1 "2024-03-02T10:00:00";
               Charts.mkReport "2" "m" "ras" "B" 0 3 "2024-03-01T10:00:00"])
    as (_ & _ & Htiles & Hinf & Hbars).
  split; [|split].
  - refine (proj1 (proj2 (Htiles _ _ _))).
    + repeat constructor; vm_compute; intros H; discriminate H.
    + vm_compute. intros H; discriminate H.
    + vm_compute. intros H; discriminate H.
  - apply Hinf.
    + repeat constructor; vm_compute; intros H; discriminate H.
    + vm_compute. intros H; discriminate H.
  - apply Hbars.
    + repeat constructor; vm_compute; intros H; discriminate H.
    + vm_compute. intros H; discriminate H.
    + vm_compute. intros H; discriminate H.
Defined.

(** C4, as worded, fails beyond the safe integers.  With two reports whose
    car removals are [2^53] and [1] and whose motorcycle removals are [1]
    and [1], the car total shown is [2^53] although the sum is [2^53 + 1],
    the removal total shown is [2^53] although the sum is [2^53 + 3], and
    the removal total differs from the car total plus the motorcycle
    total. *)
Theorem aggregates_round_beyond_safe_integers :
  let reports :=
    [Dashboard.mkReport (Some "1") "ordinario" 9007199254740992 1 0 0%Z;
     Dashboard.mkReport (Some "2") "ordinario" 1 1 0 0%Z] in
  count_sum (map Dashboard.car_removals reports) = 9007199254740993%Z /\
  to_int (Dashboard.totalCarRemovals reports) = 9007199254740992%Z /\
  (count_sum (map Dashboard.car_removals reports)
   + count_sum (map Dashboard.motorcycle_removals reports))%Z = 9007199254740995%Z /\
  to_int (Dashboard.totalRemovals reports) = 9007199254740992%Z /\
  Dashboard.totalRemovals reports <>
    (Dashboard.totalCarRemovals reports
     + Dashboard.totalMotorcycleRemovals reports)%float.
Proof.
  cbv zeta. repeat split; try (vm_compute; reflexivity).
  intros H. apply (f_equal to_int) in H. vm_compute in H. discriminate H.
Qed.

(** ** Route guards *)

(** C9. Without a session the dashboard and form routes render a redirect to
    the login view; with a session the login route renders a redirect to the
    default route ["/"]. *)
Theorem route_guards (Session : Type) (session : Session) :
  Routes.render (@None Session) "/dashboard" = Some (Routes.Navigate "/login") /\
  Routes.render (@None Session) "/form" = Some (Routes.Navigate "/login") /\
  Routes.render (Some session) "/login" = Some (Routes.Navigate "/").
Proof.
  repeat split.
Qed.

(** ** Adding a pending infraction *)

(** C10. [handleAddInfraction] appends an entry exactly when an infraction
    type is selected and the quantity is positive: it then puts the new entry
    after the entries already pending, which stay as they were and in their
    order, empties the selection and the search term and sets the quantity
    back to 1; otherwise it leaves the whole state as it is. *)
Theorem add_infraction_guarded (st : Form.State) :
  (Form.selectedInfraction st <> "" /\ (0 < Form.quantity_input st)%Z ->
     Form.infractions (Form.handleAddInfraction st) =
       Form.infractions st
         ++ [Form.mkInfraction (Form.selectedInfraction st) (Form.quantity_input st) None] /\
     Form.selectedInfraction (Form.handleAddInfraction st) = "" /\
     Form.searchTerm (Form.handleAddInfraction st) = "" /\
     Form.quantity_input (Form.handleAddInfraction st) = 1%Z) /\
  (~ (Form.selectedInfraction st <> "" /\ (0 < Form.quantity_input st)%Z) ->
     Form.handleAddInfraction st = st).
Proof.
  unfold Form.handleAddInfraction, truthy.
  destruct (String.eqb_spec (Form.selectedInfraction st) "") as [E|E];
    destruct (Z.ltb_spec 0 (Form.quantity_input st)) as [Q|Q]; simpl;
    split; try tauto; try lia; intros [? ?]; try contradiction; lia.
Qed.

Lemma add_infraction_guarded_witness :
  Form.infractions
    (Form.handleAddInfraction
       (Form.mkState Form.defaultFormData [Form.mkInfraction "A" 2 None]
                     true "X" 3 "X" false None None None)) =
  [Form.mkInfraction "A" 2 None; Form.mkInfraction "X" 3 None].
Proof.
  apply (proj1 (add_infraction_guarded
                  (Form.mkState Form.defaultFormData [Form.mkInfraction "A" 2 None]
                                true "X" 3 "X" false None None None))).
  simpl. split; [discriminate | lia].
Defined.

(** ** Reading the reports *)

Section Sorting.

Variable ascending : bool.

Lemma before_total (a b : Dashboard.Report) :
  Dashboard.before ascending a b = false -> Dashboard.before ascending b a = true.
Proof.
  unfold Dashboard.before. destruct ascending; rewrite Z.leb_gt, Z.leb_le; lia.
Qed.

Lemma before_trans (a b c : Dashboard.Report) :
  Dashboard.before ascending a b = true -> Dashboard.before ascending b c = true ->
  Dashboard.before ascending a c = true.
Proof.
  unfold Dashboard.before. destruct ascending; rewrite !Z.leb_le; lia.
Qed.

Lemma insert_sorted_perm (r : Dashboard.Report) (l : list Dashboard.Report) :
  Permutation (Dashboard.insert_sorted ascending r l) (r :: l).
Proof.
  induction l as [|x l IH]; simpl; [reflexivity|].
  destruct (Dashboard.before ascending r x); [reflexivity|].
  rewrite IH. apply perm_swap.
Qed.

Lemma sort_rows_perm (l : list Dashboard.Report) :
  Permutation (Dashboard.sort_rows ascending l) l.
Proof.
  induction l as [|x l IH]; simpl; [reflexivity|].
  rewrite insert_sorted_perm. now constructor.
Qed.

Lemma insert_sorted_sorted (r : Dashboard.Report) (l : list Dashboard.Report) :
  StronglySorted (Dashboard.in_order ascending) l ->
  StronglySorted (Dashboard.in_order ascending) (Dashboard.insert_sorted ascending r l).
Proof.
  induction l as [|x l IH]; simpl; intros Hs.
  - repeat constructor.
  - inversion Hs as [|? ? Hl Hx]; subst.
    destruct (Dashboard.before ascending r x) eqn:E.
    + constructor; [exact Hs|]. constructor; [exact E|].
      eapply Forall_impl; [|exact Hx]. intros y Hy. eapply before_trans; eauto.
    + constructor; [apply IH, Hl|].
      rewrite Forall_forall. intros y Hy.
      apply (Permutation_in _ (insert_sorted_perm r l)) in Hy.
      destruct Hy as [<-|Hy]; [apply before_total, E|].
      rewrite Forall_forall in Hx. apply Hx, Hy.
Qed.

Lemma sort_rows_sorted (l : list Dashboard.Report) :
  StronglySorted (Dashboard.in_order ascending) (Dashboard.sort_rows ascending l).
Proof.
  induction l as [|x l IH]; simpl; [constructor | apply insert_sorted_sorted, IH].
Qed.

End Sorting.

Lemma sort_rows_newest_first (l : list Dashboard.Report) :
  StronglySorted Dashboard.newest_first (Dashboard.sort_rows false l).
Proof.
  pose proof (sort_rows_sorted false l) as H.
  induction H as [|a l' Hs IH Hall]; constructor; [exact IH|].
  eapply Forall_impl; [|exact Hall].
  intros b Hb. unfold Dashboard.before in Hb. apply Z.leb_le in Hb. exact Hb.
Qed.

Lemma reportsQuery_ordering (st : Dashboard.State) :
  Dashboard.ordering (Dashboard.reportsQuery st) = Some false.
Proof.
  unfold Dashboard.reportsQuery.
  destruct (negb (Dashboard.is_all (Dashboard.selectedService st)));
    destruct (truthy (Dashboard.start (Dashboard.dateRange st)));
    destruct (truthy (Dashboard.end_ (Dashboard.dateRange st))); reflexivity.
Qed.

Lemma reportsQuery_matches (parse : string -> Dashboard.Timestamp)
      (st : Dashboard.State) (r : Dashboard.Report) :
  forallb (Dashboard.holds parse r) (Dashboard.filters (Dashboard.reportsQuery st)) =
  Dashboard.matches parse st r.
Proof.
  unfold Dashboard.reportsQuery, Dashboard.matches, truthy.
  destruct (Dashboard.is_all (Dashboard.selectedService st));
    destruct (Dashboard.start (Dashboard.dateRange st) =? "");
    destruct (Dashboard.end_ (Dashboard.dateRange st) =? "");
    simpl; rewrite ?andb_true_r, ?andb_assoc; reflexivity.
Qed.

Lemma run_reportsQuery (parse : string -> Dashboard.Timestamp)
      (st : Dashboard.State) (table : list Dashboard.Report) :
  Dashboard.run_query parse (Dashboard.reportsQuery st) table =
  Dashboard.sort_rows false (filter (Dashboard.matches parse st) table).
Proof.
  unfold Dashboard.run_query. rewrite reportsQuery_ordering. f_equal.
  apply filter_ext. intros r. apply reportsQuery_matches.
Qed.

Lemma reportsQuery_setLoading (b : bool) (st : Dashboard.State) :
  Dashboard.reportsQuery (Dashboard.setLoading b st) = Dashboard.reportsQuery st.
Proof. reflexivity. Qed.

(** What [fetchData] leaves in [reports] when the report query succeeds. *)
Lemma fetchData_reports (st : Dashboard.State) (w : Dashboard.World) :
  Dashboard.fails w (Dashboard.calls w) = None ->
  Dashboard.reports (fst (Dashboard.fetchData st w)) =
  Dashboard.run_query (Dashboard.parse_ts w) (Dashboard.reportsQuery st)
                      (Dashboard.reportsTable w).
Proof.
  intros Hok. unfold Dashboard.fetchData, bind, Dashboard.selectReports.
  rewrite reportsQuery_setLoading, Hok. simpl.
  destruct (0 <? _)%nat; [|reflexivity].
  unfold Dashboard.selectInfractionsIn. simpl.
  destruct (Dashboard.fails w (S (Dashboard.calls w))); reflexivity.
Qed.

(** March, service type 'ras': the row of April and the row of another
    service type are left out, the newest of the others comes first. *)
Example fetch_scenario :
  Dashboard.reports
    (fst (Dashboard.fetchData Sample.march_ras (Sample.board Sample.reliable))) =
  [Dashboard.mkReport None "ras" 1 1 1 180%Z;
   Dashboard.mkReport (Some "r1") "ras" 2 1 5 120%Z] /\
  Dashboard.infractions
    (fst (Dashboard.fetchData Sample.march_ras (Sample.board Sample.reliable))) =
  [Dashboard.mkInfraction 3 "r1"].
Proof. split; reflexivity. Qed.

(** C2. When the report query succeeds, the reports [fetchData] obtains are
    exactly the rows of the report table that satisfy the filter predicate
    (service type equal to the filter unless it is 'all', creation instant
    not before the start date when one is given, creation instant not after
    the end date with 'T23:59:59' appended when one is given), each as often
    as in the table, ordered by creation instant, newest first. *)
Theorem fetch_returns_matching_newest_first
        (st : Dashboard.State) (w : Dashboard.World) :
  Dashboard.fails w (Dashboard.calls w) = None ->
  let fetched := Dashboard.reports (fst (Dashboard.fetchData st w)) in
  Permutation fetched
    (filter (Dashboard.matches (Dashboard.parse_ts w) st) (Dashboard.reportsTable w)) /\
  (forall r, In r fetched <->
             In r (Dashboard.reportsTable w) /\
             Dashboard.matches (Dashboard.parse_ts w) st r = true) /\
  StronglySorted Dashboard.newest_first fetched.
Proof.
  intros Hok fetched. unfold fetched. rewrite (fetchData_reports st w Hok).
  rewrite run_reportsQuery. split; [apply sort_rows_perm|]. split.
  - intros r. rewrite <- filter_In. split; apply Permutation_in.
    + apply sort_rows_perm.
    + symmetry. apply sort_rows_perm.
  - apply sort_rows_newest_first.
Qed.

(** C3. When the report query succeeds with no rows, [fetchData] sets the
    infraction list to empty and the report query is the only call it makes;
    and in every run, after the report query, an "in" query on the
    infractions is made only with a non-empty list of identifiers, namely the
    defined identifiers of the reports that query returned. *)
Theorem empty_reports_skip_infraction_query
        (st : Dashboard.State) (w : Dashboard.World) :
  let q := Dashboard.reportsQuery st in
  let st' := fst (Dashboard.fetchData st w) in
  let w' := snd (Dashboard.fetchData st w) in
  (Dashboard.fails w (Dashboard.calls w) = None ->
   Dashboard.run_query (Dashboard.parse_ts w) q (Dashboard.reportsTable w) = [] ->
   Dashboard.reports st' = [] /\
   Dashboard.infractions st' = [] /\
   Dashboard.trace w' = Dashboard.trace w ++ [Dashboard.EvSelectReports q]) /\
  (exists evs,
      Dashboard.trace w' = Dashboard.trace w ++ Dashboard.EvSelectReports q :: evs /\
      forall uids, In (Dashboard.EvSelectInfractionsIn uids) evs ->
                   uids <> [] /\
                   uids = filter Dashboard.defined
                                 (map Dashboard.id (Dashboard.reports st'))).
Proof.
  intros q st' w'. subst q st' w'.
  unfold Dashboard.fetchData, bind, Dashboard.selectReports.
  rewrite reportsQuery_setLoading.
  destruct (Dashboard.fails w (Dashboard.calls w)) as [e|] eqn:Hfail; simpl.
  - split; [discriminate|]. exists []. split; [reflexivity|]. intros uids [].
  - split.
    + intros _ ->. simpl. auto.
    + destruct (filter Dashboard.defined _) as [|u us] eqn:Hu; simpl.
      * exists []. split; [reflexivity|]. intros uids [].
      * unfold Dashboard.selectInfractionsIn. simpl.
        exists [Dashboard.EvSelectInfractionsIn (u :: us)].
        split.
        { destruct (Dashboard.fails w (S (Dashboard.calls w))); simpl;
            rewrite <- app_assoc; reflexivity. }
        intros uids [E|[]]. injection E as <-.
        split; [discriminate|].
        destruct (Dashboard.fails w (S (Dashboard.calls w))); simpl;
          symmetry; exact Hu.
Qed.

Lemma fetch_returns_matching_newest_first_witness :
  let fetched :=
    Dashboard.reports
      (fst (Dashboard.fetchData Sample.march_ras (Sample.board Sample.reliable))) in
  Permutation fetched
    (filter (Dashboard.matches Sample.parse Sample.march_ras) Sample.table) /\
  (forall r, In r fetched <->
             In r Sample.table /\
             Dashboard.matches Sample.parse Sample.march_ras r = true) /\
  StronglySorted Dashboard.newest_first fetched.
Proof.
  apply (fetch_returns_matching_newest_first
           Sample.march_ras (Sample.board Sample.reliable)).
  reflexivity.
Defined.

Lemma empty_reports_skip_infraction_query_witness :
  Dashboard.reports
    (fst (Dashboard.fetchData Sample.march_operacao (Sample.board Sample.reliable))) = [] /\
  Dashboard.infractions
    (fst (Dashboard.fetchData Sample.march_operacao (Sample.board Sample.reliable))) = [] /\
  Dashboard.trace
    (snd (Dashboard.fetchData Sample.march_operacao (Sample.board Sample.reliable))) =
  [Dashboard.EvSelectReports (Dashboard.reportsQuery Sample.march_operacao)].
Proof.
  apply (proj1 (empty_reports_skip_infraction_query
                  Sample.march_operacao (Sample.board Sample.reliable)));
    reflexivity.
Defined.

(** ** Submitting a report *)

Lemma fresh_rows_length (n : Form.Uid) (payload : list Form.InfractionData) :
  List.length (Form.fresh_rows n payload) = List.length payload.
Proof.
  revert n. induction payload as [|d tl IH]; intros n; simpl; [reflexivity|].
  now rewrite IH.
Qed.

Lemma bound_rows_length (n rid : Form.Uid) (pending : list Form.Infraction) :
  List.length (Form.bound_rows n rid pending) = List.length pending.
Proof.
  revert n. induction pending as [|d tl IH]; intros n; simpl; [reflexivity|].
  now rewrite IH.
Qed.

Lemma bound_rows_nth (pending : list Form.Infraction) :
  forall (n rid : Form.Uid) (i : nat) (p : Form.Infraction),
    nth_error pending i = Some p ->
    nth_error (Form.bound_rows n rid pending) i =
    Some (Form.mkInfractionRow (n + i) (Some rid)
                               (Form.infraction_type p) (Form.quantity p)).
Proof.
  induction pending as [|d tl IH]; intros n rid [|i] p H; simpl in *; try discriminate.
  - injection H as ->. now rewrite Nat.add_0_r.
  - rewrite (IH (S n) rid i p H). replace (S n + i) with (n + S i) by lia. reflexivity.
Qed.

Lemma fresh_rows_nth (pending : list Form.Infraction) :
  forall (n : Form.Uid) (i : nat) (p : Form.Infraction),
    nth_error pending i = Some p ->
    nth_error (Form.fresh_rows n (Form.infractionData pending)) i =
    Some (Form.mkInfractionRow (n + i) None
                               (Form.infraction_type p) (Form.quantity p)).
Proof.
  induction pending as [|d tl IH]; intros n [|i] p H; simpl in *; try discriminate.
  - injection H as ->. now rewrite Nat.add_0_r.
  - rewrite (IH (S n) i p H). replace (S n + i) with (n + S i) by lia. reflexivity.
Qed.

(** The rebinding rows computed from the identifiers a batch insert
    returned are the bound rows: the i-th identifier meets the i-th entry. *)
Lemma updatedInfractions_fresh (rid : Form.Uid) (pending : list Form.Infraction) :
  forall (before : list Form.Infraction) (n : Form.Uid),
    Form.updatedInfractions
      (map Form.uid (Form.fresh_rows n (Form.infractionData pending)))
      (List.length before) rid (before ++ pending) =
    Some (Form.bound_rows n rid pending).
Proof.
  induction pending as [|p tl IH]; intros before n; simpl; [reflexivity|].
  rewrite nth_error_app2, Nat.sub_diag by lia. simpl.
  specialize (IH (before ++ [p]) (S n)).
  rewrite length_app, Nat.add_1_r, <- app_assoc in IH. simpl in IH.
  rewrite IH. reflexivity.
Qed.

Lemma upsert_row_replaces (b x : Form.InfractionRow) (old rest : list Form.InfractionRow) :
  Forall (fun r => Form.uid r <> Form.uid b) old ->
  Form.uid x = Form.uid b ->
  Form.upsert_row b (old ++ x :: rest) = old ++ b :: rest.
Proof.
  intros Hold Hx. induction Hold as [|r old Hr Hold IH]; simpl.
  - rewrite Hx, Nat.eqb_refl. reflexivity.
  - destruct (Nat.eqb_spec (Form.uid r) (Form.uid b)); [contradiction|].
    now rewrite IH.
Qed.

(** Upserting the bound rows over freshly inserted rows rewrites exactly
    those rows, in place. *)
Lemma upsert_bound_rows (rid : Form.Uid) (pending : list Form.Infraction) :
  forall (n : Form.Uid) (old : list Form.InfractionRow),
    Forall (fun r => Form.uid r < n) old ->
    fold_left (fun tbl r => Form.upsert_row r tbl)
              (Form.bound_rows n rid pending)
              (old ++ Form.fresh_rows n (Form.infractionData pending)) =
    old ++ Form.bound_rows n rid pending.
Proof.
  induction pending as [|p tl IH]; intros n old Hold; simpl; [reflexivity|].
  rewrite upsert_row_replaces.
  - change (old ++ ?b :: ?rest) with (old ++ [b] ++ rest). rewrite !app_assoc.
    apply IH. apply Forall_app. split.
    + eapply Forall_impl; [|exact Hold]. simpl. intros; lia.
    + repeat constructor.
  - eapply Forall_impl; [|exact Hold]. simpl. intros; lia.
  - reflexivity.
Qed.

Lemma updatedInfractions_inserted (n rid : Form.Uid) (pending : list Form.Infraction) :
  Form.updatedInfractions
    (map Form.uid (Form.fresh_rows n (Form.infractionData pending))) 0 rid pending =
  Some (Form.bound_rows n rid pending).
Proof. exact (updatedInfractions_fresh rid pending [] n). Qed.

Lemma remote_ok {A : Type} (ev : bool -> Form.Event) (effect : Form.Store -> Form.Store)
      (result : Form.Store -> A) (w : Form.World) :
  Form.fails w (Form.calls w) = None ->
  Form.remote ev effect result w =
  (succeeded (result (Form.store w)),
   Form.mkWorld (effect (Form.store w)) (Form.fails w) (S (Form.calls w)) (Form.rng w)
                (Form.draws w) (Form.trace w ++ [ev false])).
Proof. intros H. unfold Form.remote. rewrite H. reflexivity. Qed.

Lemma remote_failed {A : Type} (ev : bool -> Form.Event) (effect : Form.Store -> Form.Store)
      (result : Form.Store -> A) (w : Form.World) (e : RemoteError) :
  Form.fails w (Form.calls w) = Some e ->
  Form.remote ev effect result w =
  (errored e,
   Form.mkWorld (Form.store w) (Form.fails w) (S (Form.calls w)) (Form.rng w)
                (Form.draws w) (Form.trace w ++ [ev true])).
Proof. intros H. unfold Form.remote. rewrite H. reflexivity. Qed.

Lemma pending_nonempty (st : Form.State) :
  Form.infractions st <> [] ->
  (0 <? List.length (Form.infractions st))%nat = true.
Proof. destruct (Form.infractions st); [contradiction | reflexivity]. Qed.

Lemma pending_empty (st : Form.State) :
  Form.infractions st = [] ->
  (0 <? List.length (Form.infractions st))%nat = false.
Proof. intros ->. reflexivity. Qed.

Ltac submit_start st Hlen :=
  unfold Form.handleSubmit, bind, Form.nanoid;
  change (Form.infractions (Form.setProtocolNumber None (Form.setFormError None st)))
    with (Form.infractions st);
  rewrite Hlen;
  unfold Form.insertInfractions, Form.insertReport, Form.upsertInfractions.

Ltac submit_ok H :=
  rewrite remote_ok by exact H;
  cbn [error data succeeded errored Form.store Form.next_report_uid
       Form.store_insert_infractions].

Ltac submit_failed H :=
  erewrite remote_failed by exact H;
  cbn [error data succeeded errored].

Ltac submit_finish :=
  unfold Form.saved, Form.caught, Form.showFormError, bind, Form.alert, Form.emit, ret;
  cbn [Form.store Form.fails Form.calls Form.rng Form.draws Form.trace];
  rewrite <- ?app_assoc; reflexivity.

Section Runs.

Variables (st : Form.State) (w : Form.World).

Local Abbreviation token := (Form.rng w (Form.draws w)).
Local Abbreviation c := (Form.calls w).
Local Abbreviation s := (Form.store w).
Local Abbreviation payload := (Form.reportPayload st token).
Local Abbreviation batch := (Form.infractionData (Form.infractions st)).
Local Abbreviation rows :=
  (Form.bound_rows (Form.next_infraction_uid s) (Form.next_report_uid s)
                   (Form.infractions st)).

Lemma run_empty_saved :
  Form.infractions st = [] -> Form.fails w c = None ->
  Form.handleSubmit st w =
  (Form.accepted token st,
   Form.advance (Form.store_insert_report payload s) 1
     [Form.EvNanoid token; Form.EvInsertReport payload false;
      Form.EvAlert (Form.savedMessage token)] w).
Proof.
  intros He H0. apply pending_empty in He.
  submit_start st He. submit_ok H0. submit_finish.
Qed.

Lemma run_empty_report_failed (e : RemoteError) :
  Form.infractions st = [] -> Form.fails w c = Some e ->
  Form.handleSubmit st w =
  (Form.rejected "Erro ao salvar o formulário." st,
   Form.advance s 1
     [Form.EvNanoid token; Form.EvInsertReport payload true;
      Form.EvFormError "Erro ao salvar o formulário."] w).
Proof.
  intros He H0. apply pending_empty in He.
  submit_start st He. submit_failed H0. submit_finish.
Qed.

Lemma run_batch_failed (e : RemoteError) :
  Form.infractions st <> [] -> Form.fails w c = Some e ->
  Form.handleSubmit st w =
  (Form.rejected "Erro ao salvar os dados. Por favor, tente novamente." st,
   Form.advance s 1
     [Form.EvNanoid token; Form.EvInsertInfractions batch true;
      Form.EvFormError "Erro ao salvar os dados. Por favor, tente novamente."] w).
Proof.
  intros Hne H0. apply pending_nonempty in Hne.
  submit_start st Hne. submit_failed H0. submit_finish.
Qed.

Lemma run_report_failed (e : RemoteError) :
  Form.infractions st <> [] -> Form.fails w c = None -> Form.fails w (S c) = Some e ->
  Form.handleSubmit st w =
  (Form.rejected "Erro ao salvar o formulário." st,
   Form.advance (Form.store_insert_infractions batch s) 2
     [Form.EvNanoid token; Form.EvInsertInfractions batch false;
      Form.EvInsertReport payload true;
      Form.EvFormError "Erro ao salvar o formulário."] w).
Proof.
  intros Hne H0 H1. apply pending_nonempty in Hne.
  submit_start st Hne. submit_ok H0. submit_failed H1. submit_finish.
Qed.

Lemma run_upsert_failed (e : RemoteError) :
  Form.infractions st <> [] -> Form.fails w c = None -> Form.fails w (S c) = None ->
  Form.fails w (S (S c)) = Some e ->
  Form.handleSubmit st w =
  (Form.rejected "Erro ao atualizar as infrações." st,
   Form.advance (Form.store_insert_report payload (Form.store_insert_infractions batch s)) 3
     [Form.EvNanoid token; Form.EvInsertInfractions batch false;
      Form.EvInsertReport payload false; Form.EvUpsertInfractions rows true;
      Form.EvFormError "Erro ao atualizar as infrações."] w).
Proof.
  intros Hne H0 H1 H2. apply pending_nonempty in Hne.
  submit_start st Hne. submit_ok H0. submit_ok H1.
  rewrite updatedInfractions_inserted. submit_failed H2. submit_finish.
Qed.

Lemma run_saved :
  Form.infractions st <> [] -> Form.fails w c = None -> Form.fails w (S c) = None ->
  Form.fails w (S (S c)) = None ->
  Form.handleSubmit st w =
  (Form.accepted token st,
   Form.advance
     (Form.store_upsert_infractions rows
        (Form.store_insert_report payload (Form.store_insert_infractions batch s))) 3
     [Form.EvNanoid token; Form.EvInsertInfractions batch false;
      Form.EvInsertReport payload false; Form.EvUpsertInfractions rows false;
      Form.EvAlert (Form.savedMessage token)] w).
Proof.
  intros Hne H0 H1 H2. apply pending_nonempty in Hne.
  submit_start st Hne. submit_ok H0. submit_ok H1.
  rewrite updatedInfractions_inserted. submit_ok H2. submit_finish.
Qed.

End Runs.

(** ** The store invariant *)

Lemma upsert_row_In (x r : Form.InfractionRow) (tbl : list Form.InfractionRow) :
  In x (Form.upsert_row r tbl) -> x = r \/ In x tbl.
Proof.
  induction tbl as [|y tl IH]; simpl.
  - intros [<-|[]]. now left.
  - destruct (Form.uid y =? Form.uid r)%nat; simpl.
    + intros [<-|H]; auto.
    + intros [<-|H]; auto. destruct (IH H); auto.
Qed.

Lemma upsert_rows_In (x : Form.InfractionRow) (rows : list Form.InfractionRow) :
  forall tbl, In x (fold_left (fun tbl r => Form.upsert_row r tbl) rows tbl) ->
              In x rows \/ In x tbl.
Proof.
  induction rows as [|r rows IH]; intros tbl; simpl; [auto|].
  intros H. destruct (IH _ H) as [H'|H']; [auto|].
  destruct (upsert_row_In _ _ _ H') as [->|H'']; auto.
Qed.

Lemma uid_below_bound (x : Form.InfractionRow) (rows : list Form.InfractionRow) :
  In x rows ->
  Form.uid x < fold_right (fun r m => Nat.max (S (Form.uid r)) m) 0 rows.
Proof.
  induction rows as [|r rows IH]; cbn [In fold_right]; [contradiction|].
  intros [->|H]; apply Nat.max_lt_iff; [left; lia | right; exact (IH H)].
Qed.

Lemma store_wf_insert_infractions (payload : list Form.InfractionData) (s : Form.Store) :
  Form.store_wf s -> Form.store_wf (Form.store_insert_infractions payload s).
Proof.
  unfold Form.store_wf. cbn. intros H. apply Forall_app. split.
  - eapply Forall_impl; [|exact H]. cbn. intros; lia.
  - generalize (Form.next_infraction_uid s) as n.
    induction payload as [|d tl IH]; intros n; cbn; constructor.
    + cbn. lia.
    + eapply Forall_impl; [|apply (IH (S n))]. cbn. intros; lia.
Qed.

Lemma store_wf_upsert_infractions (rows : list Form.InfractionRow) (s : Form.Store) :
  Form.store_wf s -> Form.store_wf (Form.store_upsert_infractions rows s).
Proof.
  unfold Form.store_wf.
  cbn [Form.store_upsert_infractions Form.tbl_infractions Form.next_infraction_uid].
  intros H. apply Forall_forall. intros x Hx. apply Nat.max_lt_iff.
  destruct (upsert_rows_In _ _ _ Hx) as [Hin|Hin].
  - right. apply uid_below_bound, Hin.
  - left. rewrite Forall_forall in H. exact (H x Hin).
Qed.

(** The store invariant holds of the empty store and is kept by every run
    of [handleSubmit], whatever fails. *)
Lemma handleSubmit_keeps_store_wf (st : Form.State) (w : Form.World) :
  Form.store_wf (Form.mkStore [] [] 0 0) /\
  (Form.store_wf (Form.store w) ->
   Form.store_wf (Form.store (snd (Form.handleSubmit st w)))).
Proof.
  split; [constructor|]. intros Hwf.
  destruct (Form.infractions st) as [|p0 tl] eqn:Hpend.
  - destruct (Form.fails w (Form.calls w)) as [e|] eqn:H0.
    + rewrite (run_empty_report_failed st w e Hpend H0). exact Hwf.
    + rewrite (run_empty_saved st w Hpend H0). exact Hwf.
  - assert (Hne : Form.infractions st <> []) by (rewrite Hpend; discriminate).
    clear Hpend.
    destruct (Form.fails w (Form.calls w)) as [e|] eqn:H0.
    { rewrite (run_batch_failed st w e Hne H0). exact Hwf. }
    pose proof (store_wf_insert_infractions
                  (Form.infractionData (Form.infractions st)) _ Hwf) as Hwf1.
    destruct (Form.fails w (S (Form.calls w))) as [e|] eqn:H1.
    { rewrite (run_report_failed st w e Hne H0 H1). exact Hwf1. }
    destruct (Form.fails w (S (S (Form.calls w)))) as [e|] eqn:H2.
    { rewrite (run_upsert_failed st w e Hne H0 H1 H2). exact Hwf1. }
    rewrite (run_saved st w Hne H0 H1 H2). cbn [snd Form.advance Form.store].
    apply store_wf_upsert_infractions. exact Hwf1.
Qed.

(** ** What a submission persists *)

(** The submission scenario of the specification, on a store that already
    holds rows: one report row and one bound infraction row are added. *)
Example submission_scenario :
  let run := Form.handleSubmit Sample.form (Sample.world Sample.reliable Sample.numbered) in
  Form.protocolNumber (fst run) = Some "t" /\
  Form.tbl_reports (Form.store (snd run)) =
    Form.tbl_reports Sample.store
      ++ [Form.mkReportRow 1
            (Form.mkReportData Form.ordinario Form.GEOTRAN_1_Distrito 2 1 5 "t")] /\
  Form.tbl_infractions (Form.store (snd run)) =
    Form.tbl_infractions Sample.store ++ [Form.mkInfractionRow 1 (Some 1) "X" 3].
Proof. repeat split. Qed.

(** In a store whose identifiers were all generated by it, a submission that
    saves leaves the old rows and the bound rows of its pending entries. *)
Lemma saved_store_infractions (st : Form.State) (s : Form.Store) (payload : Form.ReportData) :
  Form.store_wf s ->
  Form.tbl_infractions
    (Form.store_upsert_infractions
       (Form.bound_rows (Form.next_infraction_uid s) (Form.next_report_uid s)
                        (Form.infractions st))
       (Form.store_insert_report payload
          (Form.store_insert_infractions (Form.infractionData (Form.infractions st)) s))) =
  Form.tbl_infractions s
    ++ Form.bound_rows (Form.next_infraction_uid s) (Form.next_report_uid s)
                       (Form.infractions st).
Proof.
  intros Hwf. cbn [Form.store_upsert_infractions Form.store_insert_report
                   Form.store_insert_infractions Form.tbl_infractions].
  apply upsert_bound_rows, Hwf.
Qed.

(** C1. In a store whose infraction identifiers were all generated by it, a
    submission that completes successfully with N pending entries adds
    exactly one report row, carrying the form's service type, sector, three
    counts and the protocol number under a store-generated identifier, and
    exactly N infraction rows, all referring to that identifier, the i-th of
    them carrying the type and quantity of the i-th pending entry; the rows
    that were there before are untouched. *)
Theorem submit_persists_report_and_infractions
        (st : Form.State) (w : Form.World) (p : string) :
  Form.store_wf (Form.store w) ->
  Form.protocolNumber (fst (Form.handleSubmit st w)) = Some p ->
  exists (rid : Form.Uid) (added : list Form.InfractionRow),
    rid = Form.next_report_uid (Form.store w) /\
    Form.tbl_reports (Form.store (snd (Form.handleSubmit st w))) =
      Form.tbl_reports (Form.store w)
        ++ [Form.mkReportRow rid
              (Form.mkReportData
                 (Form.service_name (Form.formData st)) (Form.sector (Form.formData st))
                 (Form.car_removals (Form.formData st))
                 (Form.motorcycle_removals (Form.formData st))
                 (Form.total_approaches (Form.formData st)) p)] /\
    Form.tbl_infractions (Form.store (snd (Form.handleSubmit st w))) =
      Form.tbl_infractions (Form.store w) ++ added /\
    List.length added = List.length (Form.infractions st) /\
    forall (i : nat) (pending : Form.Infraction),
      nth_error (Form.infractions st) i = Some pending ->
      nth_error added i =
      Some (Form.mkInfractionRow (Form.next_infraction_uid (Form.store w) + i) (Some rid)
              (Form.infraction_type pending) (Form.quantity pending)).
Proof.
  intros Hwf Hp.
  destruct (Form.infractions st) as [|p0 tl] eqn:Hpend.
  - destruct (Form.fails w (Form.calls w)) as [e|] eqn:H0.
    + rewrite (run_empty_report_failed st w e Hpend H0) in Hp. discriminate.
    + rewrite (run_empty_saved st w Hpend H0) in *. cbn in Hp. injection Hp as <-.
      exists (Form.next_report_uid (Form.store w)), [].
      cbn. rewrite app_nil_r. repeat split. intros [|i] x; discriminate.
  - assert (Hne : Form.infractions st <> []) by (rewrite Hpend; discriminate).
    rewrite <- Hpend.
    destruct (Form.fails w (Form.calls w)) as [e|] eqn:H0.
    { rewrite (run_batch_failed st w e Hne H0) in Hp. discriminate. }
    destruct (Form.fails w (S (Form.calls w))) as [e|] eqn:H1.
    { rewrite (run_report_failed st w e Hne H0 H1) in Hp. discriminate. }
    destruct (Form.fails w (S (S (Form.calls w)))) as [e|] eqn:H2.
    { rewrite (run_upsert_failed st w e Hne H0 H1 H2) in Hp. discriminate. }
    rewrite (run_saved st w Hne H0 H1 H2) in *. cbn in Hp. injection Hp as <-.
    exists (Form.next_report_uid (Form.store w)),
      (Form.bound_rows (Form.next_infraction_uid (Form.store w))
                       (Form.next_report_uid (Form.store w)) (Form.infractions st)).
    cbn [snd Form.advance Form.store].
    rewrite (saved_store_infractions st _ _ Hwf).
    repeat split.
    + apply bound_rows_length.
    + intros i x Hx. apply bound_rows_nth, Hx.
Qed.

Lemma submit_persists_report_and_infractions_witness :
  exists (rid : Form.Uid) (added : list Form.InfractionRow),
    rid = 1%nat /\
    Form.tbl_reports
      (Form.store (snd (Form.handleSubmit Sample.form_two
                          (Sample.world Sample.reliable Sample.numbered)))) =
      Form.tbl_reports Sample.store
        ++ [Form.mkReportRow rid (Form.mkReportData Form.ras Form.GEDAM 0 4 9 "t")] /\
    Form.tbl_infractions
      (Form.store (snd (Form.handleSubmit Sample.form_two
                          (Sample.world Sample.reliable Sample.numbered)))) =
      Form.tbl_infractions Sample.store ++ added /\
    List.length added = 2%nat /\
    forall (i : nat) (pending : Form.Infraction),
      nth_error (Form.infractions Sample.form_two) i = Some pending ->
      nth_error added i =
      Some (Form.mkInfractionRow (1 + i) (Some rid)
              (Form.infraction_type pending) (Form.quantity pending)).
Proof.
  apply (submit_persists_report_and_infractions
           Sample.form_two (Sample.world Sample.reliable Sample.numbered) "t").
  - repeat constructor.
  - reflexivity.
Defined.

(** C5. When the form has pending entries and the batch insert of the
    infraction rows (the first store call of the run) returns an error, the
    run stops with the message of the [catch] block: the store is left as it
    was, so no report row is written, the batch insert is the only store call
    made, and no protocol number is shown. *)
Theorem batch_insert_failure_aborts
        (st : Form.State) (w : Form.World) (e : RemoteError) :
  Form.infractions st <> [] ->
  Form.fails w (Form.calls w) = Some e ->
  let st' := fst (Form.handleSubmit st w) in
  let w' := snd (Form.handleSubmit st w) in
  Form.formError st' = Some "Erro ao salvar os dados. Por favor, tente novamente." /\
  Form.protocolNumber st' = None /\
  Form.store w' = Form.store w /\
  Form.calls w' = S (Form.calls w) /\
  Form.trace w' =
    Form.trace w
      ++ [Form.EvNanoid (Form.rng w (Form.draws w));
          Form.EvInsertInfractions (Form.infractionData (Form.infractions st)) true;
          Form.EvFormError "Erro ao salvar os dados. Por favor, tente novamente."].
Proof.
  intros Hne H0 st' w'. subst st' w'.
  rewrite (run_batch_failed st w e Hne H0). repeat split.
Qed.

Lemma batch_insert_failure_aborts_witness :
  Form.store (snd (Form.handleSubmit Sample.form
                     (Sample.world (Sample.failing_at 0) Sample.numbered))) =
  Sample.store.
Proof.
  apply (batch_insert_failure_aborts
           Sample.form (Sample.world (Sample.failing_at 0) Sample.numbered)
           (mkRemoteError true "network")).
  - discriminate.
  - reflexivity.
Defined.

(** C6. When the batch insert succeeded and the report insert that follows
    returns an error, the run stops with a form error after these two store
    calls: no rebinding upsert and no other call follows, the report table is
    as before, and the rows of the batch stay in the infraction table, the
    i-th with the type and quantity of the i-th pending entry and without a
    report reference. *)
Theorem report_failure_leaves_orphans
        (st : Form.State) (w : Form.World) (e : RemoteError) :
  Form.infractions st <> [] ->
  Form.fails w (Form.calls w) = None ->
  Form.fails w (S (Form.calls w)) = Some e ->
  let st' := fst (Form.handleSubmit st w) in
  let w' := snd (Form.handleSubmit st w) in
  Form.formError st' = Some "Erro ao salvar o formulário." /\
  Form.protocolNumber st' = None /\
  Form.tbl_reports (Form.store w') = Form.tbl_reports (Form.store w) /\
  (exists orphans,
      Form.tbl_infractions (Form.store w') = Form.tbl_infractions (Form.store w) ++ orphans /\
      List.length orphans = List.length (Form.infractions st) /\
      forall (i : nat) (pending : Form.Infraction),
        nth_error (Form.infractions st) i = Some pending ->
        nth_error orphans i =
        Some (Form.mkInfractionRow (Form.next_infraction_uid (Form.store w) + i) None
                (Form.infraction_type pending) (Form.quantity pending))) /\
  Form.trace w' =
    Form.trace w
      ++ [Form.EvNanoid (Form.rng w (Form.draws w));
          Form.EvInsertInfractions (Form.infractionData (Form.infractions st)) false;
          Form.EvInsertReport (Form.reportPayload st (Form.rng w (Form.draws w))) true;
          Form.EvFormError "Erro ao salvar o formulário."].
Proof.
  intros Hne H0 H1 st' w'. subst st' w'.
  rewrite (run_report_failed st w e Hne H0 H1).
  split; [reflexivity|]. split; [reflexivity|]. split; [reflexivity|].
  split; [|reflexivity].
  exists (Form.fresh_rows (Form.next_infraction_uid (Form.store w))
                          (Form.infractionData (Form.infractions st))).
  split; [reflexivity|]. split.
  - rewrite fresh_rows_length. unfold Form.infractionData. apply length_map.
  - intros i x Hx. apply fresh_rows_nth, Hx.
Qed.

Lemma report_failure_leaves_orphans_witness :
  Form.formError
    (fst (Form.handleSubmit Sample.form_two
            (Sample.world (Sample.failing_at 1) Sample.numbered))) =
  Some "Erro ao salvar o formulário." /\
  Form.tbl_reports
    (Form.store (snd (Form.handleSubmit Sample.form_two
                        (Sample.world (Sample.failing_at 1) Sample.numbered)))) =
  Form.tbl_reports Sample.store.
Proof.
  destruct (report_failure_leaves_orphans
              Sample.form_two (Sample.world (Sample.failing_at 1) Sample.numbered)
              (mkRemoteError true "network"))
    as (Herr & _ & Hreports & _).
  - discriminate.
  - reflexivity.
  - reflexivity.
  - split; [exact Herr | exact Hreports].
Defined.

(** Every run of [handleSubmit] draws its token first, writes that token
    into whatever report row it sends, and either saves (every store call it
    made succeeded, and the one message shown is the receipt) or stops with
    one form error (and a store call it made failed). *)
Lemma submit_outcome (st : Form.State) (w : Form.World) :
  exists (s' : Form.Store) (n : nat) (evs : list Form.Event),
    snd (Form.handleSubmit st w) =
      Form.advance s' n (Form.EvNanoid (Form.rng w (Form.draws w)) :: evs) w /\
    (forall payload failed,
        In (Form.EvInsertReport payload failed) evs ->
        payload = Form.reportPayload st (Form.rng w (Form.draws w))) /\
    ((fst (Form.handleSubmit st w) = Form.accepted (Form.rng w (Form.draws w)) st /\
      Form.surfaced evs = [Form.savedMessage (Form.rng w (Form.draws w))] /\
      In (Form.EvInsertReport (Form.reportPayload st (Form.rng w (Form.draws w))) false) evs /\
      forall k, Form.calls w <= k < n + Form.calls w -> Form.fails w k = None)
     \/
     (exists msg,
         fst (Form.handleSubmit st w) = Form.rejected msg st /\
         Form.surfaced evs = [msg] /\
         exists k e, Form.calls w <= k < n + Form.calls w /\ Form.fails w k = Some e)).
Proof.
  assert (Hrange : forall n k, Form.calls w <= k < n + Form.calls w ->
                               exists d, d < n /\ k = d + Form.calls w).
  { intros n k Hk. exists (k - Form.calls w). lia. }
  destruct (Form.infractions st) as [|p0 tl] eqn:Hpend.
  - destruct (Form.fails w (Form.calls w)) as [e|] eqn:H0.
    + rewrite (run_empty_report_failed st w e Hpend H0).
      do 3 eexists. split; [reflexivity|]. split.
      * intros payload failed [E|[E|[]]]; inversion E; reflexivity.
      * right. eexists. split; [reflexivity|]. split; [reflexivity|].
        exists (Form.calls w), e. split; [lia | exact H0].
    + rewrite (run_empty_saved st w Hpend H0).
      do 3 eexists. split; [reflexivity|]. split.
      * intros payload failed [E|[E|[]]]; inversion E; reflexivity.
      * left. split; [reflexivity|]. split; [reflexivity|]. split; [simpl; auto|].
        intros k Hk. destruct (Hrange _ _ Hk) as (d & Hd & ->).
        destruct d as [|d]; [exact H0 | lia].
  - assert (Hne : Form.infractions st <> []) by (rewrite Hpend; discriminate).
    clear Hpend.
    destruct (Form.fails w (Form.calls w)) as [e|] eqn:H0.
    { rewrite (run_batch_failed st w e Hne H0).
      do 3 eexists. split; [reflexivity|]. split.
      * intros payload failed [E|[E|[]]]; inversion E.
      * right. eexists. split; [reflexivity|]. split; [reflexivity|].
        exists (Form.calls w), e. split; [lia | exact H0]. }
    destruct (Form.fails w (S (Form.calls w))) as [e|] eqn:H1.
    { rewrite (run_report_failed st w e Hne H0 H1).
      do 3 eexists. split; [reflexivity|]. split.
      * intros payload failed [E|[E|[E|[]]]]; inversion E; reflexivity.
      * right. eexists. split; [reflexivity|]. split; [reflexivity|].
        exists (S (Form.calls w)), e. split; [lia | exact H1]. }
    destruct (Form.fails w (S (S (Form.calls w)))) as [e|] eqn:H2.
    { rewrite (run_upsert_failed st w e Hne H0 H1 H2).
      do 3 eexists. split; [reflexivity|]. split.
      * intros payload failed [E|[E|[E|[E|[]]]]]; inversion E; reflexivity.
      * right. eexists. split; [reflexivity|]. split; [reflexivity|].
        exists (S (S (Form.calls w))), e. split; [lia | exact H2]. }
    rewrite (run_saved st w Hne H0 H1 H2).
    do 3 eexists. split; [reflexivity|]. split.
    * intros payload failed [E|[E|[E|[E|[]]]]]; inversion E; reflexivity.
    * left. split; [reflexivity|]. split; [reflexivity|]. split; [simpl; auto|].
      intros k Hk. destruct (Hrange _ _ Hk) as (d & Hd & ->).
      destruct d as [|[|[|d]]]; [exact H0 | exact H1 | exact H2 | lia].
Qed.

(** C7. Whenever a store call made by a submission returns an error (the
    batch insert, the report insert or the rebinding upsert), the run shows
    exactly one message to the user, the form error it sets, shows no
    protocol number, and leaves the form fields and the pending list as they
    were. *)
Theorem failure_keeps_form_state (st : Form.State) (w : Form.World) :
  let st' := fst (Form.handleSubmit st w) in
  let w' := snd (Form.handleSubmit st w) in
  (exists k e, Form.calls w <= k < Form.calls w' /\ Form.fails w k = Some e) ->
  Form.formData st' = Form.formData st /\
  Form.infractions st' = Form.infractions st /\
  Form.protocolNumber st' = None /\
  exists msg evs,
    Form.formError st' = Some msg /\
    Form.trace w' = Form.trace w ++ evs /\
    Form.surfaced evs = [msg].
Proof.
  intros st' w' (k & e & Hk & He). subst st' w'.
  destruct (submit_outcome st w) as (s' & n & evs & Hw & _ & [Hok | Hbad]).
  - destruct Hok as (_ & _ & _ & Hnone). rewrite Hw in Hk. cbn in Hk.
    rewrite (Hnone k Hk) in He. discriminate.
  - destruct Hbad as (msg & Hst & Hmsg & _). rewrite Hst, Hw.
    repeat split. exists msg, (Form.EvNanoid (Form.rng w (Form.draws w)) :: evs).
    repeat split. exact Hmsg.
Qed.

Lemma failure_keeps_form_state_witness :
  Form.formData
    (fst (Form.handleSubmit Sample.form_two
            (Sample.world (Sample.failing_at 2) Sample.numbered))) =
  Form.formData Sample.form_two /\
  Form.infractions
    (fst (Form.handleSubmit Sample.form_two
            (Sample.world (Sample.failing_at 2) Sample.numbered))) =
  Form.infractions Sample.form_two.
Proof.
  destruct (failure_keeps_form_state
              Sample.form_two (Sample.world (Sample.failing_at 2) Sample.numbered))
    as (Hd & Hi & _).
  - exists 2, (mkRemoteError true "network"). split; [cbn; lia | reflexivity].
  - split; [exact Hd | exact Hi].
Defined.

(** ** Protocol numbers *)








(** Three submissions in a row, the same form twice: three numbers. *)
Example repeated_submissions_scenario :
  fst (Form.submissions [Sample.form; Sample.form_two; Sample.form]
                        (Sample.world Sample.reliable Sample.numbered)) =
  ["t"; "at"; "aat"].
Proof. reflexivity. Qed.

(** * Further properties *)

(** ** Editing the pending list *)

Lemma splice_one_nth {A : Type} (l : list A) :
  forall (index j : nat),
    nth_error (splice_one index l) j =
    if (j <? index)%nat then nth_error l j else nth_error l (S j).
Proof.
  induction l as [|x l IH]; intros index j.
  - assert (Hnil : forall k, nth_error (@nil A) k = None) by (intros [|k]; reflexivity).
    replace (splice_one index (@nil A)) with (@nil A) by (destruct index; reflexivity).
    rewrite !Hnil. destruct (j <? index)%nat; reflexivity.
  - destruct index as [|i]; simpl; [reflexivity|].
    destruct j as [|j]; simpl; [reflexivity|].
    rewrite IH. change (S j <? S i)%nat with (j <? i)%nat. reflexivity.
Qed.

Lemma splice_one_length {A : Type} (l : list A) :
  forall (index : nat),
    List.length (splice_one index l) =
    if (index <? List.length l)%nat then pred (List.length l) else List.length l.
Proof.
  induction l as [|x l IH]; intros index; [destruct index; reflexivity|].
  destruct index as [|i]; simpl; [reflexivity|].
  rewrite IH. change (S i <? S (List.length l))%nat with (i <? List.length l)%nat.
  destruct (Nat.ltb_spec i (List.length l)); [|reflexivity].
  destruct l; [simpl in *; lia | reflexivity].
Qed.

Lemma splice_one_last {A : Type} (l : list A) (x : A) :
  splice_one (List.length l) (l ++ [x]) = l.
Proof.
  induction l as [|y l IH]; simpl; [reflexivity | now rewrite IH].
Qed.

Lemma splice_one_past_end {A : Type} (l : list A) :
  forall (index : nat), List.length l <= index -> splice_one index l = l.
Proof.
  induction l as [|y l IH]; intros index H; [destruct index; reflexivity|].
  destruct index as [|i]; simpl in *; [lia|]. rewrite IH by lia. reflexivity.
Qed.

(** X1. Removing the pending entry at an index takes out that entry and no
    other: the entries before it stay where they are, the entries after it
    move up by one, and an index past the end removes nothing; the form
    fields are not touched. *)
Theorem remove_infraction_drops_one (index : nat) (st : Form.State) :
  (forall j,
      nth_error (Form.infractions (FormUI.handleRemoveInfraction index st)) j =
      if (j <? index)%nat then nth_error (Form.infractions st) j
      else nth_error (Form.infractions st) (S j)) /\
  List.length (Form.infractions (FormUI.handleRemoveInfraction index st)) =
    (if (index <? List.length (Form.infractions st))%nat
     then pred (List.length (Form.infractions st))
     else List.length (Form.infractions st)) /\
  Form.formData (FormUI.handleRemoveInfraction index st) = Form.formData st.
Proof.
  split; [|split].
  - intros j. apply splice_one_nth.
  - apply splice_one_length.
  - reflexivity.
Qed.

(** X2. Pressing "Confirmar" and then removing the row at the position the
    list had before gives back the pending list as it was, whether or not
    the confirmation added an entry. *)
Theorem add_then_remove_restores (st : Form.State) :
  Form.infractions
    (FormUI.handleRemoveInfraction (List.length (Form.infractions st))
                                   (Form.handleAddInfraction st)) =
  Form.infractions st.
Proof.
  unfold Form.handleAddInfraction, FormUI.handleRemoveInfraction.
  destruct (truthy (Form.selectedInfraction st) && (0 <? Form.quantity_input st)%Z); cbn.
  - apply splice_one_last.
  - apply splice_one_past_end. lia.
Qed.

(** X3. A second "Confirmar" right after the first adds nothing: the first
    one either added the entry and emptied the selection, or did nothing. *)
Theorem add_infraction_idempotent (st : Form.State) :
  Form.handleAddInfraction (Form.handleAddInfraction st) = Form.handleAddInfraction st.
Proof.
  unfold Form.handleAddInfraction at 2 3.
  destruct (truthy (Form.selectedInfraction st) && (0 <? Form.quantity_input st)%Z) eqn:E.
  - reflexivity.
  - unfold Form.handleAddInfraction. rewrite E. reflexivity.
Qed.

(** X4. Closing the side panel discards the selection and the search term
    and keeps the pending list; a "Confirmar" after it adds nothing. *)
Theorem close_discards_selection (st : Form.State) :
  Form.infractions (FormUI.closeSidebar st) = Form.infractions st /\
  Form.selectedInfraction (FormUI.closeSidebar st) = "" /\
  Form.searchTerm (FormUI.closeSidebar st) = "" /\
  Form.isSidebarOpen (FormUI.closeSidebar st) = false /\
  Form.handleAddInfraction (FormUI.closeSidebar st) = FormUI.closeSidebar st.
Proof.
  repeat split.
Qed.

(** X5. Choosing an option and pressing "Confirmar" appends that option with
    the quantity typed, provided the option is not the empty string and the
    quantity is positive; the search box had shown the option and is emptied
    again, and the dropdown is closed. *)
Theorem select_then_confirm (infraction : string) (st : Form.State) :
  infraction <> "" -> (0 < Form.quantity_input st)%Z ->
  let chosen := FormUI.handleSelectInfraction infraction st in
  Form.searchTerm chosen = infraction /\
  Form.isDropdownOpen chosen = false /\
  Form.infractions (Form.handleAddInfraction chosen) =
    Form.infractions st ++ [Form.mkInfraction infraction (Form.quantity_input st) None] /\
  Form.searchTerm (Form.handleAddInfraction chosen) = "" /\
  Form.isSidebarOpen (Form.handleAddInfraction chosen) = false.
Proof.
  intros Hne Hq chosen. subst chosen.
  unfold Form.handleAddInfraction, FormUI.handleSelectInfraction, truthy. cbn.
  destruct (String.eqb_spec infraction "") as [E|_]; [contradiction|].
  destruct (Z.ltb_spec 0 (Form.quantity_input st)) as [_|Q]; [|lia].
  cbn. repeat split.
Qed.

Lemma select_then_confirm_witness :
  Form.infractions
    (Form.handleAddInfraction
       (FormUI.handleSelectInfraction "Sem capacete" Sample.form)) =
  [Form.mkInfraction "X" 3 None; Form.mkInfraction "Sem capacete" 1 None].
Proof.
  apply (select_then_confirm "Sem capacete" Sample.form).
  - discriminate.
  - reflexivity.
Defined.

(** ** What a session can put into the pending list *)

(** The batch a run sends is the pending list of the state it started in,
    and the run ends in the accepted or in a rejected state. *)
Lemma submit_batch (st : Form.State) (w : Form.World) :
  exists evs,
    Form.trace (snd (Form.handleSubmit st w)) = Form.trace w ++ evs /\
    (forall payload failed,
        In (Form.EvInsertInfractions payload failed) evs ->
        payload = Form.infractionData (Form.infractions st)) /\
    (fst (Form.handleSubmit st w) = Form.accepted (Form.rng w (Form.draws w)) st \/
     exists msg, fst (Form.handleSubmit st w) = Form.rejected msg st).
Proof.
  destruct (Form.infractions st) as [|p0 tl] eqn:Hpend.
  - destruct (Form.fails w (Form.calls w)) as [e|] eqn:H0.
    + rewrite (run_empty_report_failed st w e Hpend H0).
      eexists. split; [reflexivity|]. split; [|right; eexists; reflexivity].
      intros payload failed [E|[E|[E|[]]]]; inversion E.
    + rewrite (run_empty_saved st w Hpend H0).
      eexists. split; [reflexivity|]. split; [|left; reflexivity].
      intros payload failed [E|[E|[E|[]]]]; inversion E.
  - assert (Hne : Form.infractions st <> []) by (rewrite Hpend; discriminate).
    rewrite <- Hpend. clear Hpend.
    destruct (Form.fails w (Form.calls w)) as [e|] eqn:H0.
    { rewrite (run_batch_failed st w e Hne H0).
      eexists. split; [reflexivity|]. split; [|right; eexists; reflexivity].
      intros payload failed [E|[E|[E|[]]]]; inversion E; reflexivity. }
    destruct (Form.fails w (S (Form.calls w))) as [e|] eqn:H1.
    { rewrite (run_report_failed st w e Hne H0 H1).
      eexists. split; [reflexivity|]. split; [|right; eexists; reflexivity].
      intros payload failed [E|[E|[E|[E|[]]]]]; inversion E; reflexivity. }
    destruct (Form.fails w (S (S (Form.calls w)))) as [e|] eqn:H2.
    { rewrite (run_upsert_failed st w e Hne H0 H1 H2).
      eexists. split; [reflexivity|]. split; [|right; eexists; reflexivity].
      intros payload failed [E|[E|[E|[E|[E|[]]]]]]; inversion E; reflexivity. }
    rewrite (run_saved st w Hne H0 H1 H2).
    eexists. split; [reflexivity|]. split; [|left; reflexivity].
    intros payload failed [E|[E|[E|[E|[E|[]]]]]]; inversion E; reflexivity.
Qed.

Section Sessions.

Variable infractionOptions : list string.
Variable toLowerCase : string -> string.

Local Abbreviation entry_ok := (FormUI.entry_ok infractionOptions).
Local Abbreviation data_ok := (FormUI.data_ok infractionOptions).
Local Abbreviation step := (FormUI.step infractionOptions toLowerCase).
Local Abbreviation session := (FormUI.session infractionOptions toLowerCase).

Lemma filteredInfractions_incl (st : Form.State) (x : string) :
  In x (FormUI.filteredInfractions infractionOptions toLowerCase st) ->
  In x infractionOptions.
Proof.
  unfold FormUI.filteredInfractions. rewrite filter_In. tauto.
Qed.

Lemma splice_one_In {A : Type} (x : A) (l : list A) :
  forall index, In x (splice_one index l) -> In x l.
Proof.
  induction l as [|y l IH]; intros index H; [destruct index; exact H|].
  destruct index as [|i]; simpl in *; [auto|].
  destruct H as [H|H]; [auto | right; eapply IH; eauto].
Qed.

Lemma infractionData_ok (pending : list Form.Infraction) :
  Forall entry_ok pending -> Forall data_ok (Form.infractionData pending).
Proof.
  unfold Form.infractionData. intros H. apply Forall_map.
  eapply Forall_impl; [|exact H]. intros i Hi. exact Hi.
Qed.

Local Abbreviation Inv := (FormUI.pending_inv infractionOptions).
Local Abbreviation Sent := (FormUI.batches_ok infractionOptions).

Lemma Sent_refl (w : Form.World) : Sent w w.
Proof.
  exists []. split; [now rewrite app_nil_r | intros ? ? []].
Qed.

Lemma step_keeps (a : FormUI.Action) (st : Form.State) (w : Form.World) :
  Inv st -> Inv (fst (step a st w)) /\ Sent w (snd (step a st w)).
Proof.
  intros [Hp Hs]. destruct a; cbn [FormUI.step ret fst snd];
    try (split; [split; [exact Hp | exact Hs] | apply Sent_refl]).
  - (* CloseSidebar *) split; [split; [exact Hp | left; reflexivity] | apply Sent_refl].
  - (* ClickOption *)
    destruct (Form.isDropdownOpen st);
      [|split; [split; [exact Hp | exact Hs] | apply Sent_refl]].
    destruct (nth_error _ k) as [x|] eqn:Hk;
      [|split; [split; [exact Hp | exact Hs] | apply Sent_refl]].
    split; [|apply Sent_refl]. split; [exact Hp|]. right. cbn.
    eapply filteredInfractions_incl, nth_error_In, Hk.
  - (* Confirm *)
    split; [|apply Sent_refl]. unfold Form.handleAddInfraction, truthy.
    destruct (String.eqb_spec (Form.selectedInfraction st) "") as [E|E]; cbn;
      [split; [exact Hp | exact Hs]|].
    destruct (Z.ltb_spec 0 (Form.quantity_input st)) as [Q|Q]; cbn;
      [|split; [exact Hp | exact Hs]].
    split; [|left; reflexivity]. apply Forall_app. split; [exact Hp|].
    constructor; [|constructor]. unfold FormUI.entry_ok. cbn.
    destruct Hs as [Hs|Hs]; [contradiction|]. auto.
  - (* Remove *)
    split; [|apply Sent_refl]. split; [|exact Hs]. cbn.
    rewrite Forall_forall in *. intros x Hx. eapply Hp, splice_one_In, Hx.
  - (* Submit *)
    destruct (submit_batch st w) as (evs & Htr & Hbatch & Hst). split.
    + destruct Hst as [-> | (msg & ->)]; cbn; split; auto.
    + exists evs. split; [exact Htr|]. intros payload failed Hin.
      rewrite (Hbatch payload failed Hin). apply infractionData_ok, Hp.
Qed.

Lemma session_keeps (actions : list FormUI.Action) :
  forall (st : Form.State) (w : Form.World),
    Inv st ->
    Inv (fst (session actions st w)) /\ Sent w (snd (session actions st w)).
Proof.
  induction actions as [|a tl IH]; intros st w HI; cbn [FormUI.session].
  - split; [exact HI | apply Sent_refl].
  - unfold bind. destruct (step_keeps a st w HI) as [HI1 HS1].
    destruct (step a st w) as [st1 w1]. cbn [fst snd] in *.
    destruct (IH st1 w1 HI1) as [HI2 HS2]. split; [exact HI2|].
    destruct HS1 as (evs1 & E1 & H1). destruct HS2 as (evs2 & E2 & H2).
    exists (evs1 ++ evs2). split; [rewrite E2, E1, app_assoc; reflexivity|].
    intros payload failed Hin. apply in_app_or in Hin.
    destruct Hin; eauto.
Qed.

(** X6. Whatever the user does with the form, starting from its initial
    state (editing fields, searching, choosing options, typing quantities,
    confirming, removing rows, submitting, in any order and with any store
    failures), every pending entry has a non-empty type taken from the
    catalog and a positive quantity, and so has every entry of every batch
    the form sends to the infraction table. *)
Theorem pending_entries_from_catalog (actions : list FormUI.Action) (w : Form.World) :
  Forall entry_ok (Form.infractions (fst (session actions FormUI.initialState w))) /\
  exists evs,
    Form.trace (snd (session actions FormUI.initialState w)) = Form.trace w ++ evs /\
    forall payload failed,
      In (Form.EvInsertInfractions payload failed) evs -> Forall data_ok payload.
Proof.
  destruct (session_keeps actions FormUI.initialState w) as [[Hp _] HS].
  - split; [constructor | left; reflexivity].
  - split; [exact Hp | exact HS].
Qed.

(** X7. The dropdown lists catalog entries only; an option that was just
    chosen is still listed, because the search term is then the option
    itself; and with an empty search term the whole catalog is listed,
    provided lower-casing the empty string gives the empty string. *)
Theorem filtered_options_listing (st : Form.State) :
  (forall x, In x (FormUI.filteredInfractions infractionOptions toLowerCase st) ->
             In x infractionOptions) /\
  (forall x, In x infractionOptions ->
             In x (FormUI.filteredInfractions infractionOptions toLowerCase
                     (FormUI.handleSelectInfraction x st))) /\
  (toLowerCase "" = "" -> Form.searchTerm st = "" ->
   FormUI.filteredInfractions infractionOptions toLowerCase st = infractionOptions).
Proof.
  assert (Hp : forall t, String.prefix t t = true).
  { intros t. apply String.prefix_correct.
    induction t as [|d t IHt]; simpl; [reflexivity | now rewrite IHt]. }
  assert (Hself : forall s, includes s s = true).
  { intros s. destruct s as [|c s]; cbn [includes]; rewrite Hp; reflexivity. }
  assert (Hempty : forall s, includes s "" = true).
  { intros s. destruct s; reflexivity. }
  split; [|split].
  - intros x. apply filteredInfractions_incl.
  - intros x Hx. unfold FormUI.filteredInfractions. apply filter_In.
    split; [exact Hx|]. cbn. apply Hself.
  - intros Hl Hs. unfold FormUI.filteredInfractions. rewrite Hs, Hl.
    induction infractionOptions as [|o os IH]; simpl; [reflexivity|].
    rewrite Hempty. f_equal. exact IH.
Qed.

End Sessions.

Lemma filtered_options_listing_witness :
  FormUI.filteredInfractions Sample2.catalog Sample2.lower FormUI.initialState =
  Sample2.catalog.
Proof.
  apply (proj2 (proj2 (filtered_options_listing Sample2.catalog Sample2.lower
                                                FormUI.initialState)));
    reflexivity.
Defined.

Example filtered_options_scenario :
  FormUI.filteredInfractions Sample2.catalog Sample2.lower
    (Form.setSearchTerm "CAPA" FormUI.initialState) = ["Sem capacete"].
Proof. reflexivity. Qed.

(** ** More on submissions *)

(** X8. When the batch insert and the report insert succeeded and the
    rebinding upsert returns an error, the report row stays in the store with
    the token as its protocol number, the rows of the batch stay without a
    report reference, and the user sees the form error and no protocol
    number. *)
Theorem upsert_failure_leaves_report_unbound
        (st : Form.State) (w : Form.World) (e : RemoteError) :
  Form.infractions st <> [] ->
  Form.fails w (Form.calls w) = None ->
  Form.fails w (S (Form.calls w)) = None ->
  Form.fails w (S (S (Form.calls w))) = Some e ->
  let st' := fst (Form.handleSubmit st w) in
  let w' := snd (Form.handleSubmit st w) in
  Form.formError st' = Some "Erro ao atualizar as infrações." /\
  Form.protocolNumber st' = None /\
  Form.tbl_reports (Form.store w') =
    Form.tbl_reports (Form.store w)
      ++ [Form.mkReportRow (Form.next_report_uid (Form.store w))
            (Form.reportPayload st (Form.rng w (Form.draws w)))] /\
  (exists orphans,
      Form.tbl_infractions (Form.store w') = Form.tbl_infractions (Form.store w) ++ orphans /\
      List.length orphans = List.length (Form.infractions st) /\
      Forall (fun r => Form.row_report_uid r = None) orphans) /\
  Form.calls w' = 3 + Form.calls w.
Proof.
  intros Hne H0 H1 H2 st' w'. subst st' w'.
  rewrite (run_upsert_failed st w e Hne H0 H1 H2).
  split; [reflexivity|]. split; [reflexivity|]. split; [reflexivity|].
  split; [|reflexivity].
  exists (Form.fresh_rows (Form.next_infraction_uid (Form.store w))
                          (Form.infractionData (Form.infractions st))).
  split; [reflexivity|]. split.
  - rewrite fresh_rows_length. unfold Form.infractionData. apply length_map.
  - generalize (Form.next_infraction_uid (Form.store w)) as n.
    induction (Form.infractionData (Form.infractions st)) as [|d tl IH]; intros n;
      cbn; constructor; [reflexivity | apply IH].
Qed.

Lemma upsert_failure_leaves_report_unbound_witness :
  Form.tbl_reports
    (Form.store (snd (Form.handleSubmit Sample.form_two
                        (Sample.world (Sample.failing_at 2) Sample.numbered)))) =
  Form.tbl_reports Sample.store
    ++ [Form.mkReportRow 1 (Form.mkReportData Form.ras Form.GEDAM 0 4 9 "t")].
Proof.
  destruct (upsert_failure_leaves_report_unbound
              Sample.form_two (Sample.world (Sample.failing_at 2) Sample.numbered)
              (mkRemoteError true "network"))
    as (_ & _ & Hreports & _).
  - discriminate.
  - reflexivity.
  - reflexivity.
  - reflexivity.
  - exact Hreports.
Defined.

(** X9. A retry duplicates: when a run fails at the report insert and the
    user submits the unchanged form again and every call of the second run
    succeeds, the infraction table ends with the unbound rows of the first
    run followed by the bound rows of the second, twice the pending entries
    in all, and the number shown is the token of the second run. *)
Theorem retry_after_report_failure_duplicates
        (st : Form.State) (w : Form.World) (e : RemoteError) :
  Form.store_wf (Form.store w) ->
  Form.infractions st <> [] ->
  Form.fails w (Form.calls w) = None ->
  Form.fails w (1 + Form.calls w) = Some e ->
  Form.fails w (2 + Form.calls w) = None ->
  Form.fails w (3 + Form.calls w) = None ->
  Form.fails w (4 + Form.calls w) = None ->
  let first := Form.handleSubmit st w in
  let second := Form.handleSubmit (fst first) (snd first) in
  let n := Form.next_infraction_uid (Form.store w) in
  let count := List.length (Form.infractions st) in
  Form.protocolNumber (fst second) = Some (Form.rng w (S (Form.draws w))) /\
  Form.tbl_infractions (Form.store (snd second)) =
    Form.tbl_infractions (Form.store w)
      ++ Form.fresh_rows n (Form.infractionData (Form.infractions st))
      ++ Form.bound_rows (n + count) (Form.next_report_uid (Form.store w))
                         (Form.infractions st) /\
  List.length (Form.tbl_infractions (Form.store (snd second))) =
    List.length (Form.tbl_infractions (Form.store w)) + 2 * count.
Proof.
  intros Hwf Hne H0 H1 H2 H3 H4 first second n count.
  subst first second n count.
  rewrite (run_report_failed st w e Hne H0 H1). cbn [fst snd].
  pose proof (store_wf_insert_infractions
                (Form.infractionData (Form.infractions st)) _ Hwf) as Hwf1.
  rewrite (run_saved
             (Form.rejected "Erro ao salvar o formulário." st)
             (Form.advance
                (Form.store_insert_infractions
                   (Form.infractionData (Form.infractions st)) (Form.store w))
                2
                [Form.EvNanoid (Form.rng w (Form.draws w));
                 Form.EvInsertInfractions (Form.infractionData (Form.infractions st)) false;
                 Form.EvInsertReport (Form.reportPayload st (Form.rng w (Form.draws w))) true;
                 Form.EvFormError "Erro ao salvar o formulário."]
                w)
             Hne H2 H3 H4).
  cbn [fst snd Form.advance Form.store Form.draws Form.rng Form.accepted
       Form.protocolNumber Form.setInfractions Form.setFormData Form.setProtocolNumber].
  split; [reflexivity|].
  pose proof (saved_store_infractions st
                (Form.store_insert_infractions
                   (Form.infractionData (Form.infractions st)) (Form.store w))
                (Form.reportPayload st (Form.rng w (S (Form.draws w)))) Hwf1) as Hs.
  cbn [Form.store_insert_infractions Form.next_infraction_uid Form.next_report_uid
       Form.tbl_infractions] in Hs.
  assert (Hlen : List.length (Form.infractionData (Form.infractions st))
                 = List.length (Form.infractions st))
    by (unfold Form.infractionData; apply length_map).
  assert (Hgoal :
            Form.tbl_infractions
              (Form.store_upsert_infractions
                 (Form.bound_rows
                    (Form.next_infraction_uid
                       (Form.store_insert_infractions
                          (Form.infractionData (Form.infractions st)) (Form.store w)))
                    (Form.next_report_uid (Form.store w)) (Form.infractions st))
                 (Form.store_insert_report
                    (Form.reportPayload st (Form.rng w (S (Form.draws w))))
                    (Form.store_insert_infractions
                       (Form.infractionData (Form.infractions st))
                       (Form.store_insert_infractions
                          (Form.infractionData (Form.infractions st)) (Form.store w))))) =
            Form.tbl_infractions (Form.store w)
              ++ Form.fresh_rows (Form.next_infraction_uid (Form.store w))
                                 (Form.infractionData (Form.infractions st))
              ++ Form.bound_rows
                   (Form.next_infraction_uid (Form.store w)
                    + List.length (Form.infractions st))
                   (Form.next_report_uid (Form.store w)) (Form.infractions st)).
  { etransitivity; [exact Hs|]. rewrite Hlen, <- app_assoc. reflexivity. }
  split; [exact Hgoal|].
  etransitivity; [apply (f_equal (@List.length Form.InfractionRow)); exact Hgoal|].
  rewrite !length_app, fresh_rows_length, bound_rows_length, Hlen. lia.
Qed.

Lemma retry_after_report_failure_duplicates_witness :
  let first := Form.handleSubmit Sample.form_two
                 (Sample.world (Sample.failing_at 1) Sample.numbered) in
  let second := Form.handleSubmit (fst first) (snd first) in
  Form.protocolNumber (fst second) = Some "at" /\
  Form.tbl_infractions (Form.store (snd second)) =
    [Form.mkInfractionRow 0 None "old" 7;
     Form.mkInfractionRow 1 None "X" 3; Form.mkInfractionRow 2 None "Y" 1;
     Form.mkInfractionRow 3 (Some 1) "X" 3; Form.mkInfractionRow 4 (Some 1) "Y" 1].
Proof.
  destruct (retry_after_report_failure_duplicates
              Sample.form_two (Sample.world (Sample.failing_at 1) Sample.numbered)
              (mkRemoteError true "network"))
    as (Hp & Htbl & _).
  - repeat constructor.
  - discriminate.
  - reflexivity.
  - reflexivity.
  - reflexivity.
  - reflexivity.
  - reflexivity.
  - split; [exact Hp | exact Htbl].
Defined.

Lemma list_eq_dec_nil {A : Type} (l : list A) : {l = []} + {l <> []}.
Proof.
  destruct l; [left; reflexivity | right; discriminate].
Qed.

(** X10. A run never deletes or rewrites what the store held: in a store
    whose infraction identifiers were all generated by it, the report table
    afterwards is the old one followed by at most one row, and the
    infraction table is the old one followed by either nothing or one row
    per pending entry. *)
Theorem submit_only_appends (st : Form.State) (w : Form.World) :
  Form.store_wf (Form.store w) ->
  exists added_reports added_infractions,
    Form.tbl_reports (Form.store (snd (Form.handleSubmit st w))) =
      Form.tbl_reports (Form.store w) ++ added_reports /\
    List.length added_reports <= 1 /\
    Form.tbl_infractions (Form.store (snd (Form.handleSubmit st w))) =
      Form.tbl_infractions (Form.store w) ++ added_infractions /\
    (added_infractions = [] \/
     List.length added_infractions = List.length (Form.infractions st)).
Proof.
  intros Hwf.
  assert (Hlen : forall n,
             List.length (Form.fresh_rows n (Form.infractionData (Form.infractions st)))
             = List.length (Form.infractions st)).
  { intros n. rewrite fresh_rows_length. unfold Form.infractionData. apply length_map. }
  destruct (list_eq_dec_nil (Form.infractions st)) as [Hpend|Hne].
  - destruct (Form.fails w (Form.calls w)) as [e|] eqn:H0.
    + rewrite (run_empty_report_failed st w e Hpend H0).
      exists [], []. cbn. rewrite !app_nil_r. auto.
    + rewrite (run_empty_saved st w Hpend H0).
      exists [Form.mkReportRow (Form.next_report_uid (Form.store w))
                (Form.reportPayload st (Form.rng w (Form.draws w)))], [].
      cbn. rewrite app_nil_r. auto.
  - destruct (Form.fails w (Form.calls w)) as [e|] eqn:H0.
    { rewrite (run_batch_failed st w e Hne H0).
      exists [], []. cbn. rewrite !app_nil_r. auto. }
    destruct (Form.fails w (S (Form.calls w))) as [e|] eqn:H1.
    { rewrite (run_report_failed st w e Hne H0 H1).
      exists [], (Form.fresh_rows (Form.next_infraction_uid (Form.store w))
                                  (Form.infractionData (Form.infractions st))).
      cbn [snd Form.advance Form.store Form.store_insert_infractions
           Form.tbl_reports Form.tbl_infractions List.length].
      rewrite app_nil_r. auto. }
    destruct (Form.fails w (S (S (Form.calls w)))) as [e|] eqn:H2.
    { rewrite (run_upsert_failed st w e Hne H0 H1 H2).
      exists [Form.mkReportRow (Form.next_report_uid (Form.store w))
                (Form.reportPayload st (Form.rng w (Form.draws w)))],
        (Form.fresh_rows (Form.next_infraction_uid (Form.store w))
                         (Form.infractionData (Form.infractions st))).
      cbn [snd Form.advance Form.store Form.store_insert_infractions
           Form.store_insert_report Form.next_report_uid
           Form.tbl_reports Form.tbl_infractions List.length].
      auto. }
    rewrite (run_saved st w Hne H0 H1 H2). cbn [snd Form.advance Form.store].
    rewrite (saved_store_infractions st _ _ Hwf).
    exists [Form.mkReportRow (Form.next_report_uid (Form.store w))
              (Form.reportPayload st (Form.rng w (Form.draws w)))],
      (Form.bound_rows (Form.next_infraction_uid (Form.store w))
                       (Form.next_report_uid (Form.store w)) (Form.infractions st)).
    split; [reflexivity|]. split; [cbn; lia|]. split; [reflexivity|].
    right. apply bound_rows_length.
Qed.

Lemma submit_only_appends_witness :
  exists added_reports added_infractions,
    Form.tbl_reports
      (Form.store (snd (Form.handleSubmit Sample.form_two
                          (Sample.world (Sample.failing_at 2) Sample.numbered)))) =
      Form.tbl_reports Sample.store ++ added_reports /\
    List.length added_reports <= 1 /\
    Form.tbl_infractions
      (Form.store (snd (Form.handleSubmit Sample.form_two
                          (Sample.world (Sample.failing_at 2) Sample.numbered)))) =
      Form.tbl_infractions Sample.store ++ added_infractions /\
    (added_infractions = [] \/
     List.length added_infractions = List.length (Form.infractions Sample.form_two)).
Proof.
  apply (submit_only_appends Sample.form_two
           (Sample.world (Sample.failing_at 2) Sample.numbered)).
  repeat constructor.
Defined.

(** X11. With nothing pending a run makes exactly one store call, the
    report insert: the infraction table is left alone whatever happens, and
    the protocol number is shown exactly when that one call succeeds. *)
Theorem submit_without_pending (st : Form.State) (w : Form.World) :
  Form.infractions st = [] ->
  let st' := fst (Form.handleSubmit st w) in
  let w' := snd (Form.handleSubmit st w) in
  Form.calls w' = S (Form.calls w) /\
  Form.tbl_infractions (Form.store w') = Form.tbl_infractions (Form.store w) /\
  Form.next_infraction_uid (Form.store w') = Form.next_infraction_uid (Form.store w) /\
  (exists failed,
      Form.trace w' =
        Form.trace w
          ++ [Form.EvNanoid (Form.rng w (Form.draws w));
              Form.EvInsertReport (Form.reportPayload st (Form.rng w (Form.draws w))) failed;
              if failed then Form.EvFormError "Erro ao salvar o formulário."
              else Form.EvAlert (Form.savedMessage (Form.rng w (Form.draws w)))]) /\
  (Form.protocolNumber st' = Some (Form.rng w (Form.draws w)) <->
   Form.fails w (Form.calls w) = None).
Proof.
  intros Hpend st' w'. subst st' w'.
  destruct (Form.fails w (Form.calls w)) as [e|] eqn:H0.
  - rewrite (run_empty_report_failed st w e Hpend H0). cbn.
    repeat split; try discriminate. exists true. reflexivity.
  - rewrite (run_empty_saved st w Hpend H0). cbn.
    repeat split. exists false. reflexivity.
Qed.

Lemma submit_without_pending_witness :
  Form.tbl_infractions
    (Form.store (snd (Form.handleSubmit FormUI.initialState
                        (Sample.world Sample.reliable Sample.numbered)))) =
  Form.tbl_infractions Sample.store.
Proof.
  destruct (submit_without_pending FormUI.initialState
              (Sample.world Sample.reliable Sample.numbered))
    as (_ & Htbl & _).
  - reflexivity.
  - exact Htbl.
Defined.

(** X12. After every run exactly one of the two is on display, the
    protocol number or a form error, whatever was displayed before; and a
    run never touches the side-panel inputs (selection, search term,
    quantity, panel and dropdown flags) or the connection error. *)
Theorem submit_shows_receipt_or_error (st : Form.State) (w : Form.World) :
  let st' := fst (Form.handleSubmit st w) in
  ((Form.protocolNumber st' = Some (Form.rng w (Form.draws w)) /\ Form.formError st' = None)
   \/ (Form.protocolNumber st' = None /\ exists msg, Form.formError st' = Some msg)) /\
  Form.selectedInfraction st' = Form.selectedInfraction st /\
  Form.searchTerm st' = Form.searchTerm st /\
  Form.quantity_input st' = Form.quantity_input st /\
  Form.isSidebarOpen st' = Form.isSidebarOpen st /\
  Form.isDropdownOpen st' = Form.isDropdownOpen st /\
  Form.supabaseError st' = Form.supabaseError st.
Proof.
  intros st'. subst st'.
  destruct (submit_batch st w) as (evs & _ & _ & [-> | (msg & ->)]); cbn.
  - repeat split. left. split; reflexivity.
  - repeat split. right. split; [reflexivity | exists msg; reflexivity].
Qed.

(** ** More on reading the reports *)

Section FetchRuns.

Variables (st : Dashboard.State) (w : Dashboard.World).

Local Abbreviation q := (Dashboard.reportsQuery st).
Local Abbreviation rows :=
  (Dashboard.run_query (Dashboard.parse_ts w) (Dashboard.reportsQuery st)
                       (Dashboard.reportsTable w)).
Local Abbreviation uids := (filter Dashboard.defined (map Dashboard.id rows)).
Local Abbreviation asked := (Dashboard.called (Dashboard.EvSelectReports q) w).

Lemma fetch_run_failed (e : RemoteError) :
  Dashboard.fails w (Dashboard.calls w) = Some e ->
  Dashboard.fetchData st w = (Dashboard.caught e (Dashboard.setLoading true st), asked).
Proof.
  intros H0. unfold Dashboard.fetchData, bind, Dashboard.selectReports.
  rewrite reportsQuery_setLoading, H0. reflexivity.
Qed.

Lemma fetch_run_no_ids :
  Dashboard.fails w (Dashboard.calls w) = None ->
  uids = [] ->
  Dashboard.fetchData st w =
  (Dashboard.setLoading false
     (Dashboard.setInfractions []
        (Dashboard.setReports rows (Dashboard.setLoading true st))),
   asked).
Proof.
  intros H0 Hu. unfold Dashboard.fetchData, bind, Dashboard.selectReports.
  rewrite reportsQuery_setLoading, H0. cbn [error data succeeded].
  rewrite Hu. reflexivity.
Qed.

Lemma uids_nonempty :
  uids <> [] -> (0 <? List.length uids)%nat = true.
Proof.
  destruct uids; [contradiction | reflexivity].
Qed.

Lemma fetch_run_in_failed (e : RemoteError) :
  Dashboard.fails w (Dashboard.calls w) = None ->
  uids <> [] ->
  Dashboard.fails w (S (Dashboard.calls w)) = Some e ->
  Dashboard.fetchData st w =
  (Dashboard.caught e (Dashboard.setReports rows (Dashboard.setLoading true st)),
   Dashboard.called (Dashboard.EvSelectInfractionsIn uids) asked).
Proof.
  intros H0 Hu H1. unfold Dashboard.fetchData, bind, Dashboard.selectReports.
  rewrite reportsQuery_setLoading, H0. cbn [error data succeeded].
  rewrite (uids_nonempty Hu). unfold Dashboard.selectInfractionsIn.
  cbn [Dashboard.called Dashboard.fails Dashboard.calls]. rewrite H1. reflexivity.
Qed.

Lemma fetch_run_ok :
  Dashboard.fails w (Dashboard.calls w) = None ->
  uids <> [] ->
  Dashboard.fails w (S (Dashboard.calls w)) = None ->
  Dashboard.fetchData st w =
  (Dashboard.setLoading false
     (Dashboard.setInfractions (Dashboard.run_in uids (Dashboard.infractionsTable w))
        (Dashboard.setReports rows (Dashboard.setLoading true st))),
   Dashboard.called (Dashboard.EvSelectInfractionsIn uids) asked).
Proof.
  intros H0 Hu H1. unfold Dashboard.fetchData, bind, Dashboard.selectReports.
  rewrite reportsQuery_setLoading, H0. cbn [error data succeeded].
  rewrite (uids_nonempty Hu). unfold Dashboard.selectInfractionsIn.
  cbn [Dashboard.called Dashboard.fails Dashboard.calls]. rewrite H1. reflexivity.
Qed.

End FetchRuns.

(** X13. When the report query returns an error, [fetchData] keeps the
    reports and infractions it had, makes no second query, ends the loading
    state and sets the error to the message of the error object when that is
    an [Error], to the fixed text otherwise. *)
Theorem report_query_failure_keeps_data
        (st : Dashboard.State) (w : Dashboard.World) (e : RemoteError) :
  Dashboard.fails w (Dashboard.calls w) = Some e ->
  let st' := fst (Dashboard.fetchData st w) in
  let w' := snd (Dashboard.fetchData st w) in
  Dashboard.reports st' = Dashboard.reports st /\
  Dashboard.infractions st' = Dashboard.infractions st /\
  Dashboard.loading st' = false /\
  Dashboard.error_message st' =
    Some (if instanceof_Error e then message e else "Erro ao carregar dados") /\
  Dashboard.trace w' =
    Dashboard.trace w ++ [Dashboard.EvSelectReports (Dashboard.reportsQuery st)].
Proof.
  intros H0 st' w'. subst st' w'. rewrite (fetch_run_failed st w e H0).
  repeat split.
Qed.

Lemma report_query_failure_keeps_data_witness :
  Dashboard.infractions
    (fst (Dashboard.fetchData Sample.march_ras (Sample.board (Sample.failing_at 0)))) =
  [Dashboard.mkInfraction 9 "stale"].
Proof.
  destruct (report_query_failure_keeps_data
              Sample.march_ras (Sample.board (Sample.failing_at 0))
              (mkRemoteError true "network"))
    as (_ & Hinf & _).
  - reflexivity.
  - exact Hinf.
Defined.

(** X14. When the report query succeeds with at least one identified report
    and the infraction query then returns an error, the new reports are
    already in place while the infractions are still the ones of the
    previous fetch; the error is set and loading ends. *)
Theorem infraction_query_failure_keeps_stale
        (st : Dashboard.State) (w : Dashboard.World) (e : RemoteError) :
  let rows := Dashboard.run_query (Dashboard.parse_ts w) (Dashboard.reportsQuery st)
                                  (Dashboard.reportsTable w) in
  Dashboard.fails w (Dashboard.calls w) = None ->
  filter Dashboard.defined (map Dashboard.id rows) <> [] ->
  Dashboard.fails w (S (Dashboard.calls w)) = Some e ->
  let st' := fst (Dashboard.fetchData st w) in
  Dashboard.reports st' = rows /\
  Dashboard.infractions st' = Dashboard.infractions st /\
  Dashboard.loading st' = false /\
  Dashboard.error_message st' =
    Some (if instanceof_Error e then message e else "Erro ao carregar dados").
Proof.
  intros rows H0 Hu H1 st'. subst rows st'.
  rewrite (fetch_run_in_failed st w e H0 Hu H1). repeat split.
Qed.

Lemma infraction_query_failure_keeps_stale_witness :
  Dashboard.reports
    (fst (Dashboard.fetchData Sample.march_ras (Sample.board (Sample.failing_at 1)))) =
  [Dashboard.mkReport None "ras" 1 1 1 180%Z;
   Dashboard.mkReport (Some "r1") "ras" 2 1 5 120%Z] /\
  Dashboard.infractions
    (fst (Dashboard.fetchData Sample.march_ras (Sample.board (Sample.failing_at 1)))) =
  [Dashboard.mkInfraction 9 "stale"].
Proof.
  destruct (infraction_query_failure_keeps_stale
              Sample.march_ras (Sample.board (Sample.failing_at 1))
              (mkRemoteError true "network"))
    as (Hrep & Hinf & _).
  - reflexivity.
  - discriminate.
  - reflexivity.
  - split; [exact Hrep | exact Hinf].
Defined.

Lemma fetch_cases (st : Dashboard.State) (w : Dashboard.World) :
  (exists e st0, fst (Dashboard.fetchData st w) = Dashboard.caught e st0 /\
                 Dashboard.error_message st0 = Dashboard.error_message st) \/
  (exists st0, fst (Dashboard.fetchData st w) = Dashboard.setLoading false st0 /\
               Dashboard.error_message st0 = Dashboard.error_message st /\
               Dashboard.fails w (Dashboard.calls w) = None).
Proof.
  destruct (Dashboard.fails w (Dashboard.calls w)) as [e|] eqn:H0.
  { left. rewrite (fetch_run_failed st w e H0). eexists _, _. split; reflexivity. }
  destruct (list_eq_dec_nil
              (filter Dashboard.defined
                 (map Dashboard.id
                    (Dashboard.run_query (Dashboard.parse_ts w) (Dashboard.reportsQuery st)
                                         (Dashboard.reportsTable w))))) as [Hu|Hu].
  { right. rewrite (fetch_run_no_ids st w H0 Hu). eexists. repeat split. }
  destruct (Dashboard.fails w (S (Dashboard.calls w))) as [e|] eqn:H1.
  - left. rewrite (fetch_run_in_failed st w e H0 Hu H1). eexists _, _. split; reflexivity.
  - right. rewrite (fetch_run_ok st w H0 Hu H1). eexists. repeat split.
Qed.

(** X15. [fetchData] always ends with loading switched off, and it never
    resets the error: once an error message is set it stays set after every
    later fetch, and after a later fetch whose calls all succeed the page
    still shows that same (non-empty) message instead of the tiles. *)
Theorem fetch_never_clears_error (st : Dashboard.State) (w : Dashboard.World) :
  let st' := fst (Dashboard.fetchData st w) in
  Dashboard.loading st' = false /\
  (Dashboard.error_message st <> None -> Dashboard.error_message st' <> None) /\
  (forall msg,
      Dashboard.error_message st = Some msg -> truthy msg = true ->
      Dashboard.fails w (Dashboard.calls w) = None ->
      Dashboard.fails w (S (Dashboard.calls w)) = None ->
      DashboardView.view st' = DashboardView.ErrorView msg).
Proof.
  intros st'. subst st'. split; [|split].
  - destruct (fetch_cases st w) as [(e & st0 & -> & _) | (st0 & -> & _)]; reflexivity.
  - intros Hset.
    destruct (fetch_cases st w) as [(e & st0 & -> & _) | (st0 & -> & He & _)]; cbn.
    + discriminate.
    + rewrite He. exact Hset.
  - intros msg Hmsg Htruthy H0 H1.
    destruct (list_eq_dec_nil
                (filter Dashboard.defined
                   (map Dashboard.id
                      (Dashboard.run_query (Dashboard.parse_ts w) (Dashboard.reportsQuery st)
                                           (Dashboard.reportsTable w))))) as [Hu|Hu].
    + rewrite (fetch_run_no_ids st w H0 Hu). unfold DashboardView.view. cbn.
      rewrite Hmsg, Htruthy. reflexivity.
    + rewrite (fetch_run_ok st w H0 Hu H1). unfold DashboardView.view. cbn.
      rewrite Hmsg, Htruthy. reflexivity.
Qed.

Lemma fetch_never_clears_error_witness :
  DashboardView.view
    (fst (Dashboard.fetchData Sample2.showing_error (Sample.board Sample.reliable))) =
  DashboardView.ErrorView "network".
Proof.
  apply (proj2 (proj2 (fetch_never_clears_error
                         Sample2.showing_error (Sample.board Sample.reliable))));
    reflexivity.
Defined.

Lemma run_in_spec (uids : list (option string)) (table : list Dashboard.InfractionRow)
      (inf : Dashboard.Infraction) :
  In inf (Dashboard.run_in uids table) <->
  exists row,
    In row table /\
    Dashboard.row_report_uid row = Some (Dashboard.report_uid inf) /\
    Dashboard.row_quantity row = Dashboard.quantity inf /\
    In (Some (Dashboard.report_uid inf)) uids.
Proof.
  unfold Dashboard.run_in. rewrite in_flat_map. split.
  - intros (row & Hrow & Hin). exists row. split; [exact Hrow|].
    destruct (Dashboard.row_report_uid row) as [u|]; [|contradiction].
    destruct (existsb (Dashboard.same_uid u) uids) eqn:E; [|contradiction].
    destruct Hin as [<-|[]]. cbn. repeat split.
    apply existsb_exists in E. destruct E as (v & Hv & Hsame).
    destruct v as [x|]; [|discriminate]. cbn in Hsame.
    apply String.eqb_eq in Hsame. subst. exact Hv.
  - intros (row & Hrow & Hu & Hq & Hin). exists row. split; [exact Hrow|].
    rewrite Hu.
    assert (E : existsb (Dashboard.same_uid (Dashboard.report_uid inf)) uids = true).
    { apply existsb_exists. eexists. split; [exact Hin|]. cbn. apply String.eqb_refl. }
    rewrite E, Hq. left. destruct inf; reflexivity.
Qed.

Lemma defined_ids_spec (rows : list Dashboard.Report) (u : string) :
  In (Some u) (filter Dashboard.defined (map Dashboard.id rows)) <->
  exists r, In r rows /\ Dashboard.id r = Some u.
Proof.
  rewrite filter_In, in_map_iff. split.
  - intros [(r & Hid & Hr) _]. eauto.
  - intros (r & Hr & Hid). split; [eauto | reflexivity].
Qed.

(** X16. When both queries succeed, the infractions [fetchData] obtains are
    exactly those of the fetched reports: an infraction is in the list if
    and only if it comes from a row of the infraction table whose report
    reference is the identifier of one of the fetched reports. *)
Theorem fetched_infractions_belong_to_fetched_reports
        (st : Dashboard.State) (w : Dashboard.World) :
  Dashboard.fails w (Dashboard.calls w) = None ->
  Dashboard.fails w (S (Dashboard.calls w)) = None ->
  let st' := fst (Dashboard.fetchData st w) in
  forall inf,
    In inf (Dashboard.infractions st') <->
    exists row r,
      In row (Dashboard.infractionsTable w) /\
      Dashboard.row_report_uid row = Some (Dashboard.report_uid inf) /\
      Dashboard.row_quantity row = Dashboard.quantity inf /\
      In r (Dashboard.reports st') /\
      Dashboard.id r = Some (Dashboard.report_uid inf).
Proof.
  intros H0 H1 st' inf. subst st'.
  destruct (list_eq_dec_nil
              (filter Dashboard.defined
                 (map Dashboard.id
                    (Dashboard.run_query (Dashboard.parse_ts w) (Dashboard.reportsQuery st)
                                         (Dashboard.reportsTable w))))) as [Hu|Hu].
  - rewrite (fetch_run_no_ids st w H0 Hu). cbn. split; [contradiction|].
    intros (row & r & _ & _ & _ & Hr & Hid).
    assert (Hin : In (Some (Dashboard.report_uid inf))
                     (filter Dashboard.defined
                        (map Dashboard.id
                           (Dashboard.run_query (Dashboard.parse_ts w)
                              (Dashboard.reportsQuery st) (Dashboard.reportsTable w)))))
      by (apply defined_ids_spec; eauto).
    rewrite Hu in Hin. exact Hin.
  - rewrite (fetch_run_ok st w H0 Hu H1). cbn. rewrite run_in_spec. split.
    + intros (row & Hrow & Href & Hq & Hin). apply defined_ids_spec in Hin.
      destruct Hin as (r & Hr & Hid). exists row, r. auto.
    + intros (row & r & Hrow & Href & Hq & Hr & Hid). exists row.
      repeat split; auto. apply defined_ids_spec. eauto.
Qed.

Lemma fetched_infractions_belong_to_fetched_reports_witness :
  In (Dashboard.mkInfraction 3 "r1")
     (Dashboard.infractions
        (fst (Dashboard.fetchData Sample.march_ras (Sample.board Sample.reliable)))).
Proof.
  apply (proj2 (fetched_infractions_belong_to_fetched_reports
                  Sample.march_ras (Sample.board Sample.reliable)
                  eq_refl eq_refl (Dashboard.mkInfraction 3 "r1"))).
  exists (Dashboard.mkInfractionRow 3 (Some "r1")),
    (Dashboard.mkReport (Some "r1") "ras" 2 1 5 120%Z).
  cbn. intuition.
Defined.

Lemma filter_none {A : Type} (p : A -> bool) (l : list A) :
  (forall x, In x l -> p x = false) -> filter p l = [].
Proof.
  induction l as [|a l IH]; intros H; simpl; [reflexivity|].
  rewrite (H a (or_introl eq_refl)). apply IH. intros x Hx. apply H. now right.
Qed.

Lemma filter_all {A : Type} (p : A -> bool) (l : list A) :
  (forall x, In x l -> p x = true) -> filter p l = l.
Proof.
  induction l as [|a l IH]; intros H; simpl; [reflexivity|].
  rewrite (H a (or_introl eq_refl)). f_equal. apply IH. intros x Hx. apply H. now right.
Qed.

(** X17. An inverted date range finds nothing: when both dates are given
    and the store reads the start as later than the end of the end date,
    a fetch whose report query succeeds leaves no reports and no
    infractions and makes no infraction query, whatever the table holds. *)
Theorem inverted_date_range_fetches_nothing
        (st : Dashboard.State) (w : Dashboard.World) :
  Dashboard.start (Dashboard.dateRange st) <> "" ->
  Dashboard.end_ (Dashboard.dateRange st) <> "" ->
  (Dashboard.parse_ts w (Dashboard.end_ (Dashboard.dateRange st) ++ "T23:59:59")%string
   < Dashboard.parse_ts w (Dashboard.start (Dashboard.dateRange st)))%Z ->
  Dashboard.fails w (Dashboard.calls w) = None ->
  let st' := fst (Dashboard.fetchData st w) in
  let w' := snd (Dashboard.fetchData st w) in
  Dashboard.reports st' = [] /\
  Dashboard.infractions st' = [] /\
  Dashboard.calls w' = S (Dashboard.calls w).
Proof.
  intros Hs He Hlt H0 st' w'. subst st' w'.
  assert (Hrows : Dashboard.run_query (Dashboard.parse_ts w) (Dashboard.reportsQuery st)
                                      (Dashboard.reportsTable w) = []).
  { rewrite run_reportsQuery. rewrite filter_none; [reflexivity|].
    intros r _. unfold Dashboard.matches.
    destruct (String.eqb_spec (Dashboard.start (Dashboard.dateRange st)) "");
      [contradiction|].
    destruct (String.eqb_spec (Dashboard.end_ (Dashboard.dateRange st)) "");
      [contradiction|].
    destruct (Z.leb_spec (Dashboard.parse_ts w (Dashboard.start (Dashboard.dateRange st)))
                         (Dashboard.created_at r));
      destruct (Z.leb_spec (Dashboard.created_at r)
                  (Dashboard.parse_ts w
                     (Dashboard.end_ (Dashboard.dateRange st) ++ "T23:59:59")%string));
      rewrite ?andb_false_r; try reflexivity; lia. }
  rewrite (fetch_run_no_ids st w H0); [|rewrite Hrows; reflexivity].
  rewrite Hrows. repeat split.
Qed.

Lemma inverted_date_range_fetches_nothing_witness :
  Dashboard.reports
    (fst (Dashboard.fetchData Sample2.inverted (Sample.board Sample.reliable))) = [] /\
  Dashboard.infractions
    (fst (Dashboard.fetchData Sample2.inverted (Sample.board Sample.reliable))) = [] /\
  Dashboard.calls
    (snd (Dashboard.fetchData Sample2.inverted (Sample.board Sample.reliable))) = 1.
Proof.
  apply (inverted_date_range_fetches_nothing Sample2.inverted (Sample.board Sample.reliable)).
  - discriminate.
  - discriminate.
  - reflexivity.
  - reflexivity.
Defined.

(** X18. With the filter 'all' and no dates the query carries no filter:
    when it succeeds, the fetched reports are all the rows of the table,
    each once, newest first. *)
Theorem unfiltered_fetch_returns_whole_table
        (st : Dashboard.State) (w : Dashboard.World) :
  Dashboard.selectedService st = Dashboard.all ->
  Dashboard.start (Dashboard.dateRange st) = "" ->
  Dashboard.end_ (Dashboard.dateRange st) = "" ->
  Dashboard.fails w (Dashboard.calls w) = None ->
  Dashboard.filters (Dashboard.reportsQuery st) = [] /\
  Permutation (Dashboard.reports (fst (Dashboard.fetchData st w)))
              (Dashboard.reportsTable w) /\
  StronglySorted Dashboard.newest_first
                 (Dashboard.reports (fst (Dashboard.fetchData st w))).
Proof.
  intros Hall Hs He H0. split.
  - unfold Dashboard.reportsQuery, truthy. rewrite Hall, Hs, He. reflexivity.
  - rewrite (fetchData_reports st w H0), run_reportsQuery.
    rewrite filter_all.
    + split; [apply sort_rows_perm | apply sort_rows_newest_first].
    + intros r _. unfold Dashboard.matches. rewrite Hall, Hs, He. reflexivity.
Qed.

Lemma unfiltered_fetch_returns_whole_table_witness :
  Permutation
    (Dashboard.reports
       (fst (Dashboard.fetchData
               (Dashboard.mkState [] [] true None Dashboard.all (Dashboard.mkDateRange "" ""))
               (Sample.board Sample.reliable))))
    Sample.table.
Proof.
  destruct (unfiltered_fetch_returns_whole_table
              (Dashboard.mkState [] [] true None Dashboard.all (Dashboard.mkDateRange "" ""))
              (Sample.board Sample.reliable))
    as (_ & Hperm & _); try reflexivity.
  exact Hperm.
Defined.

(** ** More on the chart series *)

Section GroupSums.

Context {R B : Type}.
Variables (rkey : R -> string) (bkey : B -> string).
Variables (init : R -> B) (merge : R -> B -> B).
Variables (measure : B -> Z) (share : R -> Z).

Hypothesis measure_init : forall r, measure (init r) = share r.
Hypothesis measure_merge : forall r b, measure (merge r b) = (measure b + share r)%Z.

Lemma update_first_sum (p : B -> bool) (r : R) (acc : list B) :
  (exists b, find p acc = Some b) ->
  Zsum (map measure (update_first p (merge r) acc)) =
  (Zsum (map measure acc) + share r)%Z.
Proof.
  induction acc as [|b acc IH]; simpl; intros (x & Hx); [discriminate|].
  destruct (p b); simpl.
  - rewrite measure_merge. lia.
  - rewrite IH by eauto. lia.
Qed.

Lemma group_step_sum (acc : list B) (r : R) :
  Zsum (map measure (group_step rkey bkey init merge acc r)) =
  (Zsum (map measure acc) + share r)%Z.
Proof.
  unfold group_step.
  destruct (find (fun item => bkey item =? rkey r) acc) as [b|] eqn:E.
  - apply update_first_sum. eauto.
  - rewrite map_app, Zsum_app. simpl. rewrite measure_init. lia.
Qed.

Lemma group_fold_sum (rs : list R) :
  forall acc,
    Zsum (map measure (fold_left (group_step rkey bkey init merge) rs acc)) =
    (Zsum (map measure acc) + Zsum (map share rs))%Z.
Proof.
  induction rs as [|r rs IH]; intros acc; simpl; [lia|].
  rewrite IH, group_step_sum. lia.
Qed.

End GroupSums.

Lemma Zsum_pointwise {K : Type} (a b : K -> Z) (l : list K) :
  Zsum (map (fun k => a k + b k)%Z l) = (Zsum (map a l) + Zsum (map b l))%Z.
Proof.
  induction l as [|k l IH]; [reflexivity|]. cbn [map Zsum fold_right] in *.
  unfold Zsum in IH. rewrite IH. lia.
Qed.

Lemma Zsum_zero {K : Type} (l : list K) : Zsum (map (fun _ => 0%Z) l) = 0%Z.
Proof. induction l as [|k l IH]; [reflexivity|]. cbn [map Zsum fold_right]. exact IH. Qed.

Lemma Zsum_other (k0 : string) (c : Z) (l : list string) :
  ~ In k0 l -> Zsum (map (fun k => if k0 =? k then c else 0%Z) l) = 0%Z.
Proof.
  induction l as [|k l IH]; intros Hn; [reflexivity|].
  cbn [map Zsum fold_right].
  destruct (String.eqb_spec k0 k) as [->|_]; [exfalso; apply Hn; left; reflexivity|].
  apply IH. intros H. apply Hn. right. exact H.
Qed.

Lemma Zsum_indicator (k0 : string) (c : Z) (l : list string) :
  NoDup l -> In k0 l -> Zsum (map (fun k => if k0 =? k then c else 0%Z) l) = c.
Proof.
  induction 1 as [|k l Hnotin Hnd IH]; intros Hin; [contradiction|].
  cbn [map Zsum fold_right].
  destruct (String.eqb_spec k0 k) as [->|Hne].
  - pose proof (Zsum_other k c l Hnotin) as Hz. unfold Zsum in Hz. rewrite Hz. lia.
  - destruct Hin as [->|Hin]; [contradiction|]. apply IH, Hin.
Qed.

(** Summing group by group, over distinct keys that cover the records, is
    summing over the records. *)
Lemma Zsum_by_groups {A : Type} (key : A -> string) (f : A -> Z)
      (ks : list string) (rs : list A) :
  NoDup ks -> (forall r, In r rs -> In (key r) ks) ->
  Zsum (map (fun k => Zsum (map f (filter (fun r => key r =? k) rs))) ks)
  = Zsum (map f rs).
Proof.
  intros Hnd. induction rs as [|a rs IH]; intros Hcover.
  - cbn [filter map]. apply Zsum_zero.
  - rewrite (map_ext _ (fun k => Z.add (if key a =? k then f a else 0%Z)
                                       (Zsum (map f (filter (fun r => key r =? k) rs))))).
    2:{ intros k. cbn [filter]. destruct (key a =? k); [|lia].
        cbn [map]. rewrite Zsum_cons. reflexivity. }
    rewrite Zsum_pointwise, Zsum_indicator, IH.
    + reflexivity.
    + intros r Hr. apply Hcover. right. exact Hr.
    + exact Hnd.
    + apply Hcover. left. reflexivity.
Qed.

Lemma sector_sums_regroup (f : Charts.Report -> float) (reports : list Charts.Report) :
  Forall (fun r => is_count (f r)) reports ->
  (count_sum (map f reports) <= MAX_SAFE_INTEGER)%Z ->
  count_sum (map (fun k => of_int (count_sum (map f (Charts.reports_of_sector k reports))))
                 (first_seen (map Charts.sector reports)))
  = count_sum (map f reports).
Proof.
  intros Hall Hsum. pose proof safe_below as Hsafe. unfold count_sum at 1.
  rewrite map_map.
  rewrite (map_ext _ (fun k => Zsum (map (fun r => to_int (f r))
                                      (filter (fun r => Charts.sector r =? k) reports)))).
  2:{ intros k.
      pose proof (count_sum_filter_le f (fun r => Charts.sector r =? k) reports Hall).
      rewrite to_int_of_int by (unfold Charts.reports_of_sector; lia).
      unfold count_sum, Charts.reports_of_sector. rewrite map_map. reflexivity. }
  rewrite Zsum_by_groups.
  - unfold count_sum. rewrite map_map. reflexivity.
  - apply first_seen_NoDup.
  - intros r Hr. apply first_seen_In. apply in_map, Hr.
Qed.

(** X19. Grouping loses nothing: the slices of the service-type series add
    up to the number of reports; and when the removal counts of the reports
    are non-negative integers with safe totals, every bar of the sector
    series holds counts, and the bars add up to the total car removals and
    the total motorcycle removals of the reports. *)
Theorem chart_series_conserve_totals (reports : list Charts.Report) :
  Zsum (map Charts.value (Charts.serviceTypeData reports)) =
    Z.of_nat (List.length reports) /\
  (Charts.safe_listing reports ->
   Forall (fun bar => is_count (Charts.cars bar) /\ is_count (Charts.motorcycles bar))
          (Charts.removalsBySector reports) /\
   count_sum (map Charts.cars (Charts.removalsBySector reports)) =
     count_sum (map Charts.car_removals reports) /\
   count_sum (map Charts.motorcycles (Charts.removalsBySector reports)) =
     count_sum (map Charts.motorcycle_removals reports)).
Proof.
  split.
  - unfold Charts.serviceTypeData.
    change Charts.serviceTypeStep with
      (group_step Charts.service_name Charts.name
         (fun r => Charts.mkSlice (Charts.service_name r) 1)
         (fun (_ : Charts.Report) e => Charts.mkSlice (Charts.name e) (Charts.value e + 1))).
    rewrite (group_fold_sum _ _ _ _ Charts.value (fun _ => 1%Z)) by reflexivity.
    simpl. induction reports as [|r l IH]; [reflexivity|].
    cbn [map Zsum fold_right List.length]. unfold Zsum in IH. rewrite IH. lia.
  - intros Hsafe. rewrite (removalsBySector_breakdown reports Hsafe).
    destruct Hsafe as (Hall & Hc & Hm).
    assert (Hcs : Forall (fun a => is_count (Charts.car_removals a)) reports).
    { eapply Forall_impl; [|exact Hall]. intros a [Ha _]. exact Ha. }
    assert (Hms : Forall (fun a => is_count (Charts.motorcycle_removals a)) reports).
    { eapply Forall_impl; [|exact Hall]. intros a [_ Ha]. exact Ha. }
    unfold Charts.sector_breakdown. split; [|split].
    + apply Forall_forall. intros bar Hin. apply in_map_iff in Hin.
      destruct Hin as (k & <- & _). cbn [Charts.cars Charts.motorcycles].
      pose proof (count_sum_filter_le Charts.car_removals
                    (fun r => Charts.sector r =? k) reports Hcs).
      pose proof (count_sum_filter_le Charts.motorcycle_removals
                    (fun r => Charts.sector r =? k) reports Hms).
      split; apply is_count_of_int; unfold Charts.reports_of_sector; lia.
    + rewrite map_map. cbn [Charts.cars].
      apply sector_sums_regroup; assumption.
    + rewrite map_map. cbn [Charts.motorcycles].
      apply sector_sums_regroup; assumption.
Qed.

Lemma chart_series_conserve_totals_witness :
  count_sum (map Charts.cars
               (Charts.removalsBySector
                  [Charts.mkReport "1" "n" "ras" "A" 2 1 "";
                   Charts.mkReport "2" "m" "ordinario" "B" 0 3 "";
                   Charts.mkReport "3" "n" "ras" "A" 1 1 ""])) =
  count_sum (map Charts.car_removals
               [Charts.mkReport "1" "n" "ras" "A" 2 1 "";
                Charts.mkReport "2" "m" "ordinario" "B" 0 3 "";
                Charts.mkReport "3" "n" "ras" "A" 1 1 ""]).
Proof.
  refine (proj1 (proj2 (proj2 (chart_series_conserve_totals _) _))).
  split; [|split].
  - repeat constructor; vm_compute; intros H; discriminate H.
  - vm_compute. intros H; discriminate H.
  - vm_compute. intros H; discriminate H.
Defined.

(** X20. Each service type that occurs among the reports has exactly one
    slice, no other slice exists, and every slice counts at least one
    report; likewise each sector that occurs has exactly one bar and no
    other bar exists. *)
Theorem chart_groups_distinct_and_cover (reports : list Charts.Report) :
  NoDup (map Charts.name (Charts.serviceTypeData reports)) /\
  (forall k, In k (map Charts.name (Charts.serviceTypeData reports)) <->
             exists r, In r reports /\ Charts.service_name r = k) /\
  Forall (fun slice => (1 <= Charts.value slice)%Z) (Charts.serviceTypeData reports) /\
  NoDup (map Charts.bar_sector (Charts.removalsBySector reports)) /\
  (forall k, In k (map Charts.bar_sector (Charts.removalsBySector reports)) <->
             exists r, In r reports /\ Charts.sector r = k).
Proof.
  rewrite serviceTypeData_distribution, removalsBySector_sectors.
  unfold Charts.service_distribution.
  rewrite !map_map. cbn [Charts.name]. rewrite !map_id.
  split; [apply first_seen_NoDup|]. split.
  { intros k. rewrite first_seen_In, in_map_iff. split; intros (r & H1 & H2); eauto. }
  split.
  { apply Forall_forall. intros slice Hin. apply in_map_iff in Hin.
    destruct Hin as (k & <- & Hk). cbn.
    apply (proj1 (first_seen_In _ _)) in Hk.
    apply in_map_iff in Hk. destruct Hk as (r & Hr & Hin).
    assert (Hmem : In r (Charts.reports_of_service k reports)).
    { unfold Charts.reports_of_service. apply filter_In. split; [exact Hin|].
      rewrite Hr. apply String.eqb_refl. }
    destruct (Charts.reports_of_service k reports); [contradiction|]. cbn. lia. }
  split; [apply first_seen_NoDup|].
  intros k. rewrite first_seen_In, in_map_iff. split; intros (r & H1 & H2); eauto.
Qed.

(** ** More on routes *)

(** X21. A redirect always lands on a page: whenever a route renders a
    redirect, the route it points to renders a page under the same session,
    never another redirect and never nothing. *)
Theorem redirects_land_on_pages
        (Session : Type) (session : option Session) (path target : string) :
  Routes.render session path = Some (Routes.Navigate target) ->
  Nav.is_page (Routes.render session target) = true.
Proof.
  unfold Routes.render, Routes.routes.
  destruct session as [s|]; cbn -[String.eqb];
    repeat (match goal with
            | |- context [String.eqb ?a path] => destruct (String.eqb a path)
            end; cbn -[String.eqb]);
    intros H; try discriminate H; injection H as <-; reflexivity.
Qed.

Lemma redirects_land_on_pages_witness :
  Nav.is_page (Routes.render (@None unit) "/login") = true.
Proof.
  apply (redirects_land_on_pages unit None "/form" "/login"). reflexivity.
Defined.

(** X22. Every link the navigation bar shows leads to a route that renders
    a page without redirecting: the brand link to the home page for
    everyone, the form and dashboard links to their pages when a session is
    present, the login link to the login page when none is. *)
Theorem nav_links_render_pages (Session : Type) (session : option Session) :
  (forall link, In link (Nav.links session) ->
                Nav.is_page (Routes.render session link) = true) /\
  Routes.render session "/" = Some Routes.Home /\
  (forall s, session = Some s ->
             Nav.links session = ["/"; "/form"; "/dashboard"] /\
             Routes.render session "/form" = Some Routes.FormPage /\
             Routes.render session "/dashboard" = Some Routes.DashboardPage) /\
  (session = None ->
   Nav.links session = ["/"; "/login"] /\
   Routes.render session "/login" = Some Routes.Login).
Proof.
  split; [|split; [|split]].
  - destruct session as [s|]; cbn; intros link H;
      repeat (destruct H as [<-|H]; [reflexivity|]); contradiction.
  - reflexivity.
  - intros s ->. repeat split.
  - intros ->. repeat split.
Qed.

Lemma nav_links_render_pages_witness :
  Nav.links (Some tt) = ["/"; "/form"; "/dashboard"] /\
  Routes.render (Some tt) "/form" = Some Routes.FormPage /\
  Routes.render (Some tt) "/dashboard" = Some Routes.DashboardPage.
Proof.
  apply (proj1 (proj2 (proj2 (nav_links_render_pages unit (Some tt)))) tt).
  reflexivity.
Defined.
